(** * SparkFund AI services: model registry, feature engineering and
      fraud-risk scoring

    A shallow embedding of the algorithmic core of the repository:

    - [services/ai-service/src/services/model_service.py]  (module [Registry])
    - [services/kyc-service/internal/ai/feature_engineering.py]
      (module [FeatureEngineering])
    - [services/kyc-service/internal/ai/fraud_detection.py]  (module [Kyc])
    - [services/aml-service/internal/ai/fraud_detection.py]  (module [Aml])

    Python floats are modelled by exact rationals ([Q]), and by the
    doubles themselves where a property turns on rounding; Python
    dictionaries by finite maps ([gmap]); files on disk and object
    attributes by explicit state passing; exceptions and [sys.exit] by a
    sum type. *)

From Stdlib Require Import ZArith QArith Qround String Ascii List Bool Lia.
From Stdlib Require Import DecimalString Lqa.
From Stdlib Require PrimFloat Uint63.
From stdpp Require Import gmap strings.
Import ListNotations.

Local Open Scope string_scope.
Local Open Scope list_scope.

(** ** Python strings *)

Module PyStr.

(** Lowercasing of the ASCII letters A to Z: what [str.lower()] does to a
    string of ASCII characters.  The scorers take [str.lower] itself as a
    parameter; this function serves for examples on ASCII strings. *)
Definition lower_ascii (c : ascii) : ascii :=
  let n := nat_of_ascii c in
  if (65 <=? n)%nat && (n <=? 90)%nat then ascii_of_nat (n + 32) else c.

Fixpoint ascii_lower (s : string) : string :=
  match s with
  | EmptyString => EmptyString
  | String c s' => String (lower_ascii c) (ascii_lower s')
  end.

(** ['@' in s] *)
Fixpoint contains_char (c : ascii) (s : string) : bool :=
  match s with
  | EmptyString => false
  | String d s' => if Ascii.eqb c d then true else contains_char c s'
  end.

(** [s.split(c)] for a one-character separator: the pieces between the
    occurrences of [c]; never empty. *)
Fixpoint split_char (c : ascii) (s : string) : list string :=
  match s with
  | EmptyString => [EmptyString]
  | String d s' =>
      if Ascii.eqb c d then EmptyString :: split_char c s'
      else match split_char c s' with
           | [] => [String d EmptyString]
           | p :: ps => String d p :: ps
           end
  end.

(** [s.split(sep)] for a separator of any positive length: the leftmost
    occurrences, not overlapping.  [skip] counts the characters of a
    matched separator still to be passed over. *)
Fixpoint split_go (sep s : string) (skip : nat) : string * list string :=
  match s with
  | EmptyString => (EmptyString, [])
  | String c s' =>
      match skip with
      | S k => split_go sep s' k
      | O =>
          if String.prefix sep s
          then let '(p, ps) := split_go sep s' (String.length sep - 1) in
               (EmptyString, p :: ps)
          else let '(p, ps) := split_go sep s' 0 in
               (String c p, ps)
      end
  end.

Definition split (sep s : string) : list string :=
  let '(p, ps) := split_go sep s 0 in p :: ps.

(** [sep.join(l)] *)
Definition join (sep : string) (l : list string) : string :=
  String.concat sep l.

(** Lexicographic order on code points, as Python compares [str]. *)
Definition lt (a b : string) : bool := String.ltb a b.

(** [a <= b]: [b < a] is false. *)
Definition le (a b : string) : Prop := lt b a = false.

(** A decimal numeral without sign; [None] on any other string. *)
Fixpoint parse_digits_acc (s : string) (acc : N) : option N :=
  match s with
  | EmptyString => Some acc
  | String c s' =>
      let n := N_of_ascii c in
      if (48 <=? n)%N && (n <=? 57)%N
      then parse_digits_acc s' (acc * 10 + (n - 48))%N
      else None
  end.

Definition parse_digits (s : string) : option N :=
  match s with
  | EmptyString => None
  | _ => parse_digits_acc s 0%N
  end.

End PyStr.

(** ** Python values, exceptions *)

Module Py.

(** The JSON values the services receive: null, booleans, numbers,
    strings, arrays and objects.  An object is the [address] of a record,
    a [Dict[str, str]] by its annotation. *)
#[warnings="-register-all"]
Inductive value :=
| VNone
| VBool (b : bool)
| VNum (q : Q)
| VStr (s : string)
| VList (l : list value)
| VDict (d : gmap string string).

(** Python truthiness. *)
Definition truthy (v : value) : bool :=
  match v with
  | VNone => false
  | VBool b => b
  | VNum q => negb (Qeq_bool q 0)
  | VStr s => negb (String.eqb s "")
  | VList l => match l with [] => false | _ :: _ => true end
  | VDict d => negb (bool_decide (d = ∅))
  end.

(** An exception by the name of its class, or [sys.exit(code)]. *)
Inductive exn :=
| Exception (class : string)
| SystemExit (code : Z).

Inductive outcome (A : Type) :=
| Return (a : A)
| Raise (e : exn).
Arguments Return {A} a.
Arguments Raise {A} e.

Definition bind {A B} (m : outcome A) (f : A -> outcome B) : outcome B :=
  match m with
  | Return a => f a
  | Raise e => Raise e
  end.

(** [a < b] and [a <= b] on floats. *)
Definition Qltb (a b : Q) : bool := negb (Qle_bool b a).



End Py.

Notation "'do' x <- m ; k" := (Py.bind m (fun x => k))
  (at level 10, x name, m at level 100, k at level 200).

(** ** The model registry ([model_service.py]) *)

Module Registry.

(** Timestamps ([datetime]) as microseconds since the epoch. *)
Definition datetime := Z.

(** [AIModelInfo] ([models/ai_model.py]). *)
Record AIModelInfo := mkAIModelInfo {
  id : string;
  name : string;
  version : string;
  type : string;
  accuracy : Q;
  last_trained_at : datetime;
  created_at : datetime;
  updated_at : datetime
}.

(** What a call reads from outside the program: the identifiers drawn by
    successive [uuid.uuid4()] calls and the value of [datetime.now()]. *)
Record ambient := mkAmbient {
  uuid4 : nat -> string;
  now : datetime
}.

(** The service's persistent state: the ["models"] array of
    [models.json], and the model files written under the model
    directories (path and payload). *)
Record state := mkState {
  models_json : list AIModelInfo;
  model_files : list (string * string)
}.

(** [__init__] writes [{"models": []}] when the file does not exist. *)
Definition init : state := mkState [] [].

(** [_create_default_models]: four fixed entries with fresh ids and the
    current time, written over [models.json]. *)
Definition default_models (amb : ambient) : list AIModelInfo :=
  [ mkAIModelInfo (uuid4 amb 0) "Document Verification Model" "1.0.0"
      "DOCUMENT" (98 # 100) (now amb) (now amb) (now amb);
    mkAIModelInfo (uuid4 amb 1) "Face Recognition Model" "1.0.0"
      "FACE" (95 # 100) (now amb) (now amb) (now amb);
    mkAIModelInfo (uuid4 amb 2) "Risk Analysis Model" "1.0.0"
      "RISK" (92 # 100) (now amb) (now amb) (now amb);
    mkAIModelInfo (uuid4 amb 3) "Anomaly Detection Model" "1.0.0"
      "ANOMALY" (90 # 100) (now amb) (now amb) (now amb) ].

Definition _create_default_models (amb : ambient) (st : state)
  : list AIModelInfo * state :=
  let models := default_models amb in
  (models, mkState models (model_files st)).

(** [list_models]: the catalog, seeded with the defaults when empty. *)
Definition list_models (amb : ambient) (st : state)
  : list AIModelInfo * state :=
  match models_json st with
  | [] => _create_default_models amb st
  | models => (models, st)
  end.

(** [get_model]: the first entry with the given id, or [None]. *)
Definition get_model (model_id : string) (st : state) : option AIModelInfo :=
  List.find (fun m => String.eqb (id m) model_id) (models_json st).

(** [sorted(l, key=lambda m: m.version, reverse=True)]: Python's sort is
    stable, also under [reverse=True], and compares the version strings
    as strings. *)
Fixpoint insert_desc (x : AIModelInfo) (l : list AIModelInfo)
  : list AIModelInfo :=
  match l with
  | [] => [x]
  | y :: l' =>
      if PyStr.lt (version x) (version y) then y :: insert_desc x l'
      else x :: y :: l'
  end.

Definition sorted_by_version_desc (l : list AIModelInfo) : list AIModelInfo :=
  fold_right insert_desc [] l.

Definition models_of_type (model_type : string) (l : list AIModelInfo)
  : list AIModelInfo :=
  List.filter (fun m => String.eqb (type m) model_type) l.

(** [get_model_by_type]: reads the catalog, never writes it. *)
Definition get_model_by_type (model_type : string) (st : state)
  : option AIModelInfo :=
  match sorted_by_version_desc (models_of_type model_type (models_json st)) with
  | [] => None
  | m :: _ => Some m
  end.

(** The router ([routers/models.py]) turns [None] into a 404. *)
Inductive http_result (A : Type) :=
| Ok (a : A)
| NotFound (detail : string)
| ServerError (detail : string).
Arguments Ok {A} a.
Arguments NotFound {A} detail.
Arguments ServerError {A} detail.

Definition route_get_model_by_type (model_type : string) (st : state)
  : http_result AIModelInfo :=
  match get_model_by_type model_type st with
  | Some m => Ok m
  | None => NotFound ("No model found for type: " +:+ model_type)
  end.

Definition known_types : list string := ["DOCUMENT"; "FACE"; "RISK"; "ANOMALY"].

(** The directory [settings.<TYPE>_MODEL_PATH] of a known type. *)
Definition model_dir (model_path model_type : string) : option string :=
  if String.eqb model_type "DOCUMENT" then Some (model_path +:+ "/document")
  else if String.eqb model_type "FACE" then Some (model_path +:+ "/face")
  else if String.eqb model_type "RISK" then Some (model_path +:+ "/risk")
  else if String.eqb model_type "ANOMALY" then Some (model_path +:+ "/anomaly")
  else None.

(** [upload_model]: the file is written first, then the entry is appended
    to the catalog; an unknown type raises [ValueError] before anything is
    written.  [ext] is the extension of the uploaded file's name. *)
Definition upload_model (amb : ambient) (model_path : string)
    (model_type model_name model_version ext payload : string) (st : state)
  : Py.outcome string * state :=
  match model_dir model_path model_type with
  | None => (Py.Raise (Py.Exception "ValueError"), st)
  | Some dir =>
      let model_id := uuid4 amb 0 in
      let path := dir +:+ "/" +:+ model_id +:+ ext in
      let info := mkAIModelInfo model_id model_name model_version model_type
                    (95 # 100) (now amb) (now amb) (now amb) in
      (Py.Return model_id,
       mkState (models_json st ++ [info]) (model_files st ++ [(path, payload)]))
  end.

(** A request to the registry, and the state it leaves. *)
Inductive request :=
| ListModels
| GetModel (model_id : string)
| GetModelByType (model_type : string)
| UploadModel (model_path model_type model_name model_version ext payload : string).

Definition step (amb : ambient) (r : request) (st : state) : state :=
  match r with
  | ListModels => snd (list_models amb st)
  | GetModel _ => st
  | GetModelByType _ => st
  | UploadModel p t n v e b => snd (upload_model amb p t n v e b st)
  end.

(** A run: each request comes with the ambient values it observes. *)
Fixpoint run (rs : list (ambient * request)) (st : state) : state :=
  match rs with
  | [] => st
  | (amb, r) :: rs' => run rs' (step amb r st)
  end.

(** *** Semantic versions, as the specification reads them *)

(** [major.minor.patch], each an integer. *)
Definition semver (s : string) : option (N * N * N) :=
  match PyStr.split_char "." s with
  | [a; b; c] =>
      match PyStr.parse_digits a, PyStr.parse_digits b, PyStr.parse_digits c with
      | Some x, Some y, Some z => Some (x, y, z)
      | _, _, _ => None
      end
  | _ => None
  end.

Definition semver_lt (a b : N * N * N) : bool :=
  let '(a1, a2, a3) := a in
  let '(b1, b2, b3) := b in
  ((a1 <? b1) || ((a1 =? b1) && ((a2 <? b2) || ((a2 =? b2) && (a3 <? b3)))))%N.

End Registry.

(** ** Feature engineering ([feature_engineering.py]) *)

Module FeatureEngineering.
Import Py.

(** Nanoseconds in a day: [Timedelta.days] is the floor of the difference
    in days. *)
Definition ns_per_day : Z := 86400 * 1000000000.

Section WithPandas.

(** [pd.to_datetime] on one value, as it answers during the call: the
    instant in nanoseconds since the epoch, or [None] when it raises.  The
    answer can depend on the time of the call (pandas reads the words
    ["now"] and ["today"] against the clock); [engineer_features] supplies
    the function for the time at which it runs. *)
Variable to_datetime : value -> option Z.

(** [calculate_age] on two single dates: every exception is caught and
    gives [None].  (For a list of dates pandas answers with an index, and
    the method with an index of ages, which this reading leaves out.) *)
Definition calculate_age (dob created_at : value) : option Q :=
  if negb (truthy dob) || negb (truthy created_at) then None
  else
    match to_datetime dob, to_datetime created_at with
    | Some dob_date, Some created_date =>
        Some (inject_Z ((created_date - dob_date) / ns_per_day) / (36525 # 100))%Q
    | _, _ => None
    end.

End WithPandas.

Section WithLower.

(** [str.lower()], on strings in their UTF-8 encoding. *)
Variable str_lower : string -> string.

(** [extract_email_domain]: a value that is not a string is falsy or
    makes ['@' not in email] or [email.split] raise, which the handler
    turns into ['unknown']. *)
Definition extract_email_domain (email : value) : string :=
  match email with
  | VStr s =>
      if negb (truthy email) || negb (PyStr.contains_char "@" s) then "unknown"
      else match nth_error (PyStr.split_char "@" s) 1 with
           | Some d => str_lower d
           | None => "unknown"
           end
  | _ => "unknown"
  end.

End WithLower.

(** [combine_location] *)
Definition location_fields : list string :=
  ["address"; "city"; "country"; "postal_code"].

Definition combine_location (address : gmap string string) : string :=
  PyStr.join ", "
    (omap (fun f => match address !! f with
                    | Some v => if String.eqb v "" then None else Some v
                    | None => None
                    end) location_fields).

(** The dictionary [engineer_features] returns. *)
Record features := mkFeatures {
  age : option Q;
  email_domain : string;
  location : string;
  risk_score : Q;
  document_type : value;
  document_number : value;
  first_name : value;
  last_name : value
}.

(** [data.get(k)] and [data.get(k, d)] *)
Definition get (data : gmap string value) (k : string) : value :=
  default VNone (data !! k).

Definition get_default (data : gmap string value) (k : string) (d : value)
  : value :=
  default d (data !! k).

(** [100 - risk_score if risk_score else 0]: [bool] is an [int]; a
    non-empty string, list or dictionary makes the subtraction raise. *)
Definition inverted_risk_score (risk_score : value) : outcome Q :=
  if truthy risk_score then
    match risk_score with
    | VNum q => Return (100 - q)%Q
    | VBool b => Return (100 - (if b then 1 else 0))%Q
    | _ => Raise (Exception "TypeError")
    end
  else Return 0%Q.

Section AtCallTime.

(** [pd.to_datetime] during a call at which [datetime.now().isoformat()]
    is the given string, and [str.lower()]. *)
Variable to_datetime_at : string -> value -> option Z.
Variable str_lower : string -> string.

(** [engineer_features].  [now_iso] is the value of
    [datetime.now().isoformat()] at the call. *)
Definition engineer_features (now_iso : string) (data : gmap string value)
  : outcome features :=
  let age := calculate_age (to_datetime_at now_iso) (get data "date_of_birth")
               (get_default data "created_at" (VStr now_iso)) in
  let email_domain := extract_email_domain str_lower (get data "email") in
  do location <-
    match get_default data "address" (VDict ∅) with
    | VDict d => Return (combine_location d)
    | _ => Raise (Exception "AttributeError")
    end;
  do risk_score <- inverted_risk_score (get_default data "risk_score" (VNum 0));
  Return (mkFeatures age email_domain location risk_score
            (get_default data "document_type" (VStr "unknown"))
            (get data "document_number")
            (get data "first_name")
            (get data "last_name")).

End AtCallTime.

(** *** An ISO 8601 reading of [pd.to_datetime]

    The fragment [YYYY-MM-DD] and [YYYY-MM-DDTHH:MM:SS[.ffffff]], which
    covers what [isoformat()] prints; every other value is refused. *)

Definition is_leap (y : Z) : bool :=
  ((y mod 4 =? 0) && negb (y mod 100 =? 0) || (y mod 400 =? 0))%Z.

Definition days_in_month (y m : Z) : Z :=
  if (m =? 2)%Z then (if is_leap y then 29 else 28)
  else if ((m =? 4) || (m =? 6) || (m =? 9) || (m =? 11))%Z then 30 else 31.

(** Days from 1970-01-01 to the civil date [y-m-d]. *)
Definition days_from_civil (y m d : Z) : Z :=
  let y' := (if m <=? 2 then y - 1 else y)%Z in
  let era := (y' / 400)%Z in
  let yoe := (y' - era * 400)%Z in
  let mp := ((m + 9) mod 12)%Z in
  let doy := ((153 * mp + 2) / 5 + d - 1)%Z in
  let doe := (yoe * 365 + yoe / 4 - yoe / 100 + doy)%Z in
  (era * 146097 + doe - 719468)%Z.

Definition field (s : string) (start len : nat) : option Z :=
  let t := String.substring start len s in
  if (String.length t =? len)%nat
  then option_map Z.of_N (PyStr.parse_digits t) else None.

Definition parse_date (s : string) : option Z :=
  match field s 0 4, field s 5 2, field s 8 2 with
  | Some y, Some m, Some d =>
      if String.eqb (String.substring 4 1 s) "-"
         && String.eqb (String.substring 7 1 s) "-"
         && (1 <=? m)%Z && (m <=? 12)%Z
         && (1 <=? d)%Z && (d <=? days_in_month y m)%Z
      then Some (days_from_civil y m d) else None
  | _, _, _ => None
  end.

Definition parse_time (s : string) : option Z :=
  match field s 11 2, field s 14 2, field s 17 2 with
  | Some h, Some mi, Some sec =>
      if String.eqb (String.substring 10 1 s) "T"
         && String.eqb (String.substring 13 1 s) ":"
         && String.eqb (String.substring 16 1 s) ":"
         && (h <? 24)%Z && (mi <? 60)%Z && (sec <? 60)%Z
      then
        let secs := (h * 3600 + mi * 60 + sec)%Z in
        if (String.length s =? 19)%nat then Some (secs * 1000000000)%Z
        else if (String.length s =? 26)%nat
                && String.eqb (String.substring 19 1 s) "."
             then match field s 20 6 with
                  | Some us => Some (secs * 1000000000 + us * 1000)%Z
                  | None => None
                  end
             else None
      else None
  | _, _, _ => None
  end.

Definition iso_to_datetime (v : value) : option Z :=
  match v with
  | VStr s =>
      match parse_date s with
      | Some days =>
          if (String.length s =? 10)%nat then Some (days * ns_per_day)%Z
          else match parse_time s with
               | Some ns => Some (days * ns_per_day + ns)%Z
               | None => None
               end
      | None => None
      end
  | _ => None
  end.

(** The same reading at a given time of call, to which the words ["now"]
    and ["today"] refer. *)
Definition iso_to_datetime_at (now_iso : string) (v : value) : option Z :=
  match v with
  | VStr s =>
      if String.eqb s "now" || String.eqb s "today"
      then iso_to_datetime (VStr now_iso)
      else iso_to_datetime v
  | _ => None
  end.

End FeatureEngineering.

(** ** The numerical libraries the scorers call *)

Module Sklearn.
Import Py.

(** A 2-d array of floats, by rows. *)
Definition matrix := list (list Q).

(** What the scorers use of numpy, pandas and scikit-learn without the
    repository defining it: the classifier (a [RandomForestClassifier] in
    the source) and the functions on floats that leave the rationals. *)
Record library := mkLibrary {
  classifier : Type;
  (** [RandomForestClassifier(...)], not yet fitted *)
  new_classifier : classifier;
  (** [model.predict(X)]: one class per row *)
  predict : classifier -> matrix -> outcome (list Z);
  (** [model.predict_proba(X)]: one row of class probabilities per row *)
  predict_proba : classifier -> matrix -> outcome (list (list Q));
  (** [model.fit(X, y)] *)
  fit : classifier -> matrix -> list Z -> outcome classifier;
  (** [model.feature_importances_] *)
  feature_importances_ : classifier -> outcome (list Q);
  (** [np.sqrt], [np.log1p] *)
  sqrt : Q -> Q;
  log1p : Q -> Q;
  (** [pd.to_datetime]: nanoseconds since the epoch, [None] when it raises
      (a missing time, [NaT], is counted with the failures) *)
  to_datetime : value -> option Z;
  (** [datetime.fromisoformat]: [None] when it raises [ValueError] *)
  fromisoformat : string -> option Z;
  (** [str] of a float, [float] of a string ([None]: [ValueError]) *)
  str_of_float : Q -> string;
  float_of_str : string -> option Q
}.

(** Conversion of a cell to a float, for the cells that have a rational
    value: numbers and booleans.  Every other cell ends the computation
    here with [ValueError]; numpy itself reads a null as [nan] and passes
    it on, which the rationals cannot follow, so what is proved about the
    rows a scorer receives is stated for records of numbers and booleans. *)
Definition to_float (v : value) : outcome Q :=
  match v with
  | VNum q => Return q
  | VBool b => Return (if b then 1 else 0)%Q
  | _ => Raise (Exception "ValueError")
  end.

(** The cells with a rational value. *)
Definition is_number (v : value) : bool :=
  match v with
  | VNum _ | VBool _ => true
  | _ => false
  end.

Fixpoint mapM {A B} (f : A -> outcome B) (l : list A) : outcome (list B) :=
  match l with
  | [] => Return []
  | a :: l' => do b <- f a; do bs <- mapM f l'; Return (b :: bs)
  end.

(** *** [StandardScaler] *)

(** The fitted attributes.  [scale_] is derived from [var_]. *)
Record StandardScaler := mkStandardScaler {
  mean_ : list Q;
  var_ : list Q;
  n_samples_seen_ : nat
}.

Definition Qsum (l : list Q) : Q := fold_right Qplus 0%Q l.

Definition column (j : nat) (X : matrix) : list Q :=
  map (fun row => nth j row 0%Q) X.

Definition width (X : matrix) : nat :=
  match X with
  | [] => 0
  | row :: _ => length row
  end.

Definition mean (l : list Q) : Q :=
  Qred (Qsum l / inject_Z (Z.of_nat (length l))).

(** Population variance, as numpy's [var]. *)
Definition variance (l : list Q) : Q :=
  let m := mean l in
  Qred (Qsum (map (fun x => (x - m) * (x - m))%Q l)
        / inject_Z (Z.of_nat (length l))).

(** [StandardScaler().fit(X)]: whatever was fitted before is discarded.
    An array without rows, or with rows of different lengths, is refused. *)
Definition scaler_fit (X : matrix) : outcome StandardScaler :=
  match X with
  | [] => Raise (Exception "ValueError")
  | row :: _ =>
      if forallb (fun r => (length r =? length row)%nat) X then
        let cols := map (fun j => column j X) (seq 0 (length row)) in
        Return (mkStandardScaler (map mean cols) (map variance cols) (length X))
      else Raise (Exception "ValueError")
  end.

Section WithLibrary.
Context (L : library).

(** A constant column has variance 0 and is scaled by 1. *)
Definition scale_of_var (v : Q) : Q :=
  if Qeq_bool v 0 then 1%Q else sqrt L v.

Definition scale_row (s : StandardScaler) (row : list Q) : list Q :=
  map (fun '(x, (m, v)) => Qred ((x - m) / scale_of_var v))
      (combine row (combine (mean_ s) (var_ s))).

(** [scaler.transform(X)]: reads the fitted attributes, changes nothing.
    [None] is a scaler that was never fitted. *)
Definition scaler_transform (s : option StandardScaler) (X : matrix)
  : outcome matrix :=
  match s with
  | None => Raise (Exception "NotFittedError")
  | Some s =>
      if forallb (fun r => (length r =? length (mean_ s))%nat) X
      then Return (map (scale_row s) X)
      else Raise (Exception "ValueError")
  end.

(** [scaler.fit_transform(X)]: fit, then transform with the new fit. *)
Definition scaler_fit_transform (X : matrix) : outcome (matrix * StandardScaler) :=
  do s <- scaler_fit X;
  do Xs <- scaler_transform (Some s) X;
  Return (Xs, s).

End WithLibrary.

(** [f"{x:.2f}"]: two decimals, ties to even. *)
Definition round_half_even (q : Q) : Z :=
  let n := Qnum q in
  let d := Z.pos (Qden q) in
  let f := (n / d)%Z in
  let r := (n mod d)%Z in
  match (2 * r ?= d)%Z with
  | Lt => f
  | Gt => (f + 1)%Z
  | Eq => if Z.even f then f else (f + 1)%Z
  end.

Definition decimal (n : Z) : string :=
  NilZero.string_of_uint (N.to_uint (Z.to_N n)).

Definition format_2f (q : Q) : string :=
  let n := round_half_even (q * 100) in
  let a := Z.abs n in
  let frac := (a mod 100)%Z in
  (if Qle_bool 0 q then "" else "-")
    +:+ decimal (a / 100) +:+ "."
    +:+ (if (frac <? 10)%Z then "0" else "") +:+ decimal frac.

End Sklearn.

(** ** The KYC fraud scorer ([kyc-service/internal/ai/fraud_detection.py]) *)

Module Kyc.
Import Py Sklearn.

(** A one-row [DataFrame]: the columns in order, each with its cell. *)
Definition frame := list (string * value).

Fixpoint col_get (k : string) (df : frame) : option value :=
  match df with
  | [] => None
  | (c, v) :: df' => if String.eqb c k then Some v else col_get k df'
  end.

(** [df[k] = v]: in place when the column exists, appended otherwise. *)
Fixpoint col_set (k : string) (v : value) (df : frame) : frame :=
  match df with
  | [] => [(k, v)]
  | (c, w) :: df' =>
      if String.eqb c k then (c, v) :: df' else (c, w) :: col_set k v df'
  end.

Definition col_drop (k : string) (df : frame) : frame :=
  List.filter (fun '(c, _) => negb (String.eqb c k)) df.

Definition feature_columns : list string :=
  [ "transaction_amount"; "log_amount"; "hour_of_day"; "day_of_week";
    "transaction_frequency"; "user_age"; "account_age"; "previous_fraud_reports";
    "document_quality"; "document_age"; "country_risk_score"; "ip_risk_score";
    "login_attempts"; "failed_logins" ].

(** The result [predict] prints. *)
Record result := mkResult {
  risk_level : string;
  risk_score : Q;
  confidence : Q;
  explanation : string;
  risk_factors : list string;
  recommended_action : string
}.

(** [calculate_risk_level] *)
Definition calculate_risk_level (risk_score : Q) : string :=
  if Qltb risk_score 33 then "low"
  else if Qltb risk_score 67 then "medium"
  else "high".

(** [features[k].iloc[0]]: [KeyError] when the column is absent. *)
Definition cell (k : string) (df : frame) : outcome value :=
  match col_get k df with
  | Some v => Return v
  | None => Raise (Exception "KeyError")
  end.

(** [v > c] and [v < c] against a number: only numbers and booleans
    compare. *)
Definition as_number (v : value) : outcome Q :=
  match v with
  | VNum q => Return q
  | VBool b => Return (if b then 1 else 0)%Q
  | _ => Raise (Exception "TypeError")
  end.

(** [append] when the test holds. *)
Definition flag (b : bool) (label : string) (l : list string) : list string :=
  if b then l ++ [label] else l.

(** [generate_explanation]: four fixed tests on the record; the
    prediction is not used. *)
Definition generate_explanation (prediction : Z) (features : frame)
  : outcome string :=
  do amount <- (do v <- cell "transaction_amount" features; as_number v);
  let risk_factors := flag (Qltb 10000 amount) "High transaction amount" [] in
  do quality <- (do v <- cell "document_quality" features; as_number v);
  let risk_factors := flag (Qltb quality (7 # 10)) "Low document quality" risk_factors in
  do country <- (do v <- cell "country_risk_score" features; as_number v);
  let risk_factors := flag (Qltb (7 # 10) country) "High-risk country" risk_factors in
  do failed <- (do v <- cell "failed_logins" features; as_number v);
  let risk_factors := flag (Qltb 3 failed) "Multiple failed login attempts" risk_factors in
  let risk_factors :=
    match risk_factors with
    | [] => ["No significant risk factors identified"]
    | _ => risk_factors
    end in
  Return (PyStr.join " | " risk_factors).

(** The dictionary [predict] builds, from the classifier's output for the
    record ([predict_proba(X)[0]], [predict(X)[0]]) and the preprocessed
    record. *)
Definition scoring_result (prediction_proba : list Q) (prediction : Z)
    (X : frame) : outcome result :=
  do p1 <- match nth_error prediction_proba 1 with
           | Some p => Return p
           | None => Raise (Exception "IndexError")
           end;
  let risk_score := (p1 * 100)%Q in
  do explanation <- generate_explanation prediction X;
  do explanation' <- generate_explanation prediction X;
  Return (mkResult (calculate_risk_level risk_score)
                   risk_score
                   p1
                   explanation
                   (PyStr.split " | " explanation')
                   (if Qltb 66 risk_score then "Enhanced verification required"
                    else "Standard verification")).



Section WithLibrary.
Context (L : library).

(** The files [joblib] reads and writes: a (model, scaler) pair each. *)
Definition store := gmap string (classifier L * StandardScaler).

(** [load_model]: any failure prints and exits with status 1. *)
Definition load_model (fs : store) (model_path : string)
  : outcome (classifier L * StandardScaler) :=
  match fs !! model_path with
  | Some ms => Return ms
  | None => Raise (SystemExit 1)
  end.

Definition ns_per_hour : Z := 3600 * 1000000000.

(** [.dt.hour] and [.dt.dayofweek] (Monday is 0; the epoch was a
    Thursday). *)
Definition hour_of (ns : Z) : Z := ((ns / ns_per_hour) mod 24)%Z.
Definition dayofweek_of (ns : Z) : Z :=
  ((ns / FeatureEngineering.ns_per_day + 3) mod 7)%Z.

(** The column [pd.get_dummies] makes for the one value of
    [document_type]; none for a missing value. *)
Definition dummy_column (v : value) : outcome (option string) :=
  match v with
  | VNone => Return None
  | VStr s => Return (Some ("doc_type_" +:+ s))
  | VBool b => Return (Some ("doc_type_" +:+ (if b then "True" else "False")))
  | VNum q => Return (Some ("doc_type_" +:+ str_of_float L q))
  | VList _ => Raise (Exception "TypeError")
  | VDict _ => Raise (Exception "TypeError")
  end.

(** [preprocess_features] on the record of one request. *)
Definition preprocess_features (features : frame) : outcome frame :=
  let df := features in
  do df <-
    match col_get "transaction_time" df with
    | Some v =>
        match to_datetime L v with
        | Some ns =>
            Return (col_set "day_of_week" (VNum (inject_Z (dayofweek_of ns)))
                     (col_set "hour_of_day" (VNum (inject_Z (hour_of ns))) df))
        | None => Raise (Exception "ValueError")
        end
    | None => Return df
    end;
  do df <-
    match col_get "transaction_amount" df with
    | Some v =>
        do a <- as_number v;
        Return (col_set "log_amount" (VNum (log1p L a)) df)
    | None => Return df
    end;
  do df <-
    match col_get "document_type" df with
    | Some v =>
        do c <- dummy_column v;
        Return (col_drop "document_type" df
                ++ match c with Some c => [(c, VBool true)] | None => [] end)
    | None => Return df
    end;
  let doc_type_columns :=
    List.filter (String.prefix "doc_type_") (map fst df) in
  let columns := feature_columns ++ doc_type_columns in
  let missing_features :=
    List.filter (fun c => negb (bool_decide (is_Some (col_get c df)))) columns in
  match missing_features with
  | _ :: _ => Raise (SystemExit 1)
  | [] => Return (omap (fun c => option_map (pair c) (col_get c df)) columns)
  end.

(** The frame as the array the scaler receives. *)
Definition to_array (X : frame) : outcome (list Q) :=
  mapM (fun '(_, v) => to_float v) X.

Definition first {A} (l : list A) : outcome A :=
  match l with
  | a :: _ => Return a
  | [] => Raise (Exception "IndexError")
  end.

(** [predict].  [features] is [json.loads(features_json)], [None] when
    the text is not JSON.  A returned result is the one printed before
    [sys.exit(0)].  The files are only read. *)
Definition predict (fs : store) (model_path : string) (features : option frame)
  : outcome result * store :=
  (do ms <- load_model fs model_path;
   let '(model, scaler) := ms in
   do features <- match features with
                  | Some f => Return f
                  | None => Raise (SystemExit 1)
                  end;
   do X <- preprocess_features features;
   do row <- to_array X;
   do X_scaled <- scaler_transform L (Some scaler) [row];
   do probas <- predict_proba L model X_scaled;
   do prediction_proba <- first probas;
   do classes <- predict L model X_scaled;
   do prediction <- first classes;
   scoring_result prediction_proba prediction X,
   fs).

(** [json.loads(training_data_json)] as far as [update] looks at it. *)
Inductive training_data :=
| NotJson
| Data (features : option (list frame)) (labels : option (list Z)).

(** [preprocess_features] on the frame [update] hands it,
    [pd.DataFrame(features)]: the first statement, [pd.DataFrame([features])],
    wraps the frame in a list, and pandas refuses the three-dimensional
    input with [ValueError] ("Must pass 2-d input"), whatever the rows. *)
Definition preprocess_features_frame (X : list frame) : outcome (list frame) :=
  Raise (Exception "ValueError").

(** [update]: the model is refitted with the loaded scaler and the pair
    is written back; the file is written by the last statement only. *)
Definition update (fs : store) (model_path : string) (data : training_data)
  : outcome unit * store :=
  let run :=
    do fl <- match data with
             | NotJson => Raise (SystemExit 1)
             | Data (Some features) (Some labels) => Return (features, labels)
             | Data _ _ => Raise (Exception "KeyError")
             end;
    let '(features, labels) := fl in
    do ms <- load_model fs model_path;
    let '(model, scaler) := ms in
    do X <- preprocess_features_frame features;
    do rows <- mapM to_array X;
    do X_scaled <- scaler_transform L (Some scaler) rows;
    do model' <- fit L model X_scaled labels;
    Return (model', scaler) in
  match run with
  | Return ms => (Return tt, <[model_path := ms]> fs)
  | Raise e => (Raise e, fs)
  end.

End WithLibrary.

End Kyc.

(** ** The AML fraud scorer ([aml-service/internal/ai/fraud_detection.py]) *)

Module Aml.
Import Py Sklearn.

(** The features of the model, in the order of its columns. *)
Definition feature_names : list string :=
  [ "amount"; "transaction_count"; "average_amount"; "amount_deviation";
    "user_age"; "account_age"; "country_risk"; "ip_risk";
    "login_attempts"; "failed_logins"; "device_changes";
    "pep_status"; "sanction_list"; "watch_list" ].

(** The dictionary [predict] returns. *)
Record result := mkResult {
  risk_level : string;
  risk_score : Q;
  explanation : string;
  risk_factors : list string;
  confidence : Q
}.

(** [dict(zip(names, importances))], then the loop over its items: the
    entries above 0.1, in the order of the dictionary, each printed with
    two decimals. *)
Definition significant (feature_importance : list (string * Q))
  : list (string * Q) :=
  List.filter (fun '(_, importance) => Qltb (1 # 10) importance) feature_importance.

Definition label (fi : string * Q) : string :=
  fst fi +:+ ": " +:+ format_2f (snd fi).

Definition risk_factors_of (importances : list Q) : list string :=
  map label (significant (combine feature_names importances)).

Definition explanation_of (risk_factors : list string) : string :=
  "Risk factors: " +:+ PyStr.join ", " risk_factors.

(** The risk level: from the predicted class and the probability of the
    positive class. *)
Definition risk_level_of (prediction : Z) (p1 : Q) : string :=
  if (prediction =? 1)%Z then
    if Qltb (8 # 10) p1 then "HIGH"
    else if Qltb (5 # 10) p1 then "MEDIUM"
    else "LOW"
  else "LOW".

(** A request whose fourteen features are all there, each a number or a
    boolean. *)
Definition numeric_record (features : gmap string value) : bool :=
  forallb (fun k => match features !! k with
                    | Some v => is_number v
                    | None => false
                    end) feature_names.

(** [max(probabilities)] *)
Definition Qmax_list (l : list Q) : outcome Q :=
  match l with
  | [] => Raise (Exception "ValueError")
  | x :: l' => Return (fold_left (fun m y => if Qltb m y then y else m) l' x)
  end.

Section WithLibrary.
Context (L : library).

(** A [FraudDetectionModel] object, and the file at [self.model_path]
    (which holds the classifier alone). *)
Record t := mkT {
  model : classifier L;
  scaler : option StandardScaler;
  model_file : option (classifier L)
}.

(** [__init__]: a scaler that was never fitted; the classifier of the
    file when there is one. *)
Definition init (file : option (classifier L)) : t :=
  mkT (default (new_classifier L) file) None file.

Definition item (features : gmap string value) (k : string) : outcome value :=
  match features !! k with
  | Some v => Return v
  | None => Raise (Exception "KeyError")
  end.

(** [float(v)] *)
Definition float (v : value) : outcome Q :=
  match v with
  | VNum q => Return q
  | VBool b => Return (if b then 1 else 0)%Q
  | VStr s => match float_of_str L s with
              | Some q => Return q
              | None => Raise (Exception "ValueError")
              end
  | _ => Raise (Exception "TypeError")
  end.

(** The row [np.array([...])] builds: the first eleven features as they
    come, the last three through [float]. *)
Definition feature_row (features : gmap string value) : outcome (list Q) :=
  do raw <- mapM (item features) (firstn 11 feature_names);
  do flags <- mapM (fun k => do v <- item features k; float v)
                   (skipn 11 feature_names);
  do numbers <- mapM to_float raw;
  Return (numbers ++ flags).

(** [preprocess_features]: the scaler of the object is fitted to the one
    row of the request, which it then transforms. *)
Definition preprocess_features (self : t) (features : gmap string value)
  : outcome matrix * t :=
  let run :=
    do time <- item features "transaction_time";
    do _ <- match time with
            | VStr s => match fromisoformat L s with
                        | Some ns => Return time
                        | None => Raise (Exception "ValueError")
                        end
            | _ => Return time
            end;
    do row <- feature_row features;
    scaler_fit_transform L [row] in
  match run with
  | Return (X, s) => (Return X, mkT (model self) (Some s) (model_file self))
  | Raise e => (Raise e, self)
  end.

Definition first {A} (l : list A) : outcome A :=
  match l with
  | a :: _ => Return a
  | [] => Raise (Exception "IndexError")
  end.

Definition second {A} (l : list A) : outcome A :=
  match l with
  | _ :: a :: _ => Return a
  | _ => Raise (Exception "IndexError")
  end.

(** [predict] *)
Definition predict (self : t) (features : gmap string value)
  : outcome result * t :=
  let '(X, self') := preprocess_features self features in
  (do X <- X;
   do classes <- Sklearn.predict L (model self') X;
   do prediction <- first classes;
   do probas <- predict_proba L (model self') X;
   do probabilities <- first probas;
   do risk_level <-
     (if (prediction =? 1)%Z
      then do p1 <- second probabilities; Return (risk_level_of prediction p1)
      else Return "LOW");
   do importances <- feature_importances_ L (model self');
   let risk_factors := risk_factors_of importances in
   do p1 <- second probabilities;
   do confidence <- Qmax_list probabilities;
   Return (mkResult risk_level p1 (explanation_of risk_factors)
                    risk_factors confidence),
   self').

(** The rows [update] collects: one [preprocess_features] per record,
    each refitting the scaler. *)
Fixpoint preprocess_all (self : t) (features_list : list (gmap string value))
  : outcome matrix * t :=
  match features_list with
  | [] => (Return [], self)
  | f :: fs =>
      match preprocess_features self f with
      | (Return X, self') =>
          match first X with
          | Return row =>
              match preprocess_all self' fs with
              | (Return rows, self'') => (Return (row :: rows), self'')
              | (Raise e, self'') => (Raise e, self'')
              end
          | Raise e => (Raise e, self')
          end
      | (Raise e, self') => (Raise e, self')
      end
  end.

(** [update]: the scaler is fitted on all rows, the classifier refitted
    and saved. *)
Definition update (self : t) (features_list : list (gmap string value))
    (labels : list Z) : outcome unit * t :=
  match preprocess_all self features_list with
  | (Raise e, self') => (Raise e, self')
  | (Return X, self') =>
      match scaler_fit X with
      | Raise e => (Raise e, self')
      | Return s =>
          let self' := mkT (model self') (Some s) (model_file self') in
          match (do X' <- scaler_transform L (Some s) X; fit L (model self') X' labels) with
          | Raise e => (Raise e, self')
          | Return m => (Return tt, mkT m (Some s) (Some m))
          end
      end
  end.

End WithLibrary.

End Aml.

(** ** A small instance of the libraries, to run the scorers on examples *)

Module Stub.
Import Py Sklearn.

(** A classifier that answers every row with the same class and
    probabilities.  Its [fit] checks, as scikit-learn does, that there are
    as many rows as labels, and refuses the batch with [ValueError]
    otherwise. *)
Record classifier := mkClassifier {
  class : Z;
  probabilities : list Q;
  importances : list Q;
  fitted_on : nat
}.

Definition fit (m : classifier) (X : matrix) (y : list Z) : outcome classifier :=
  if (length X =? length y)%nat
  then Return (mkClassifier (class m) (probabilities m) (importances m) (length X))
  else Raise (Exception "ValueError").

Definition library : Sklearn.library :=
  mkLibrary classifier
    (mkClassifier 0 [1; 0]%Q [] 0)
    (fun m X => Return (map (fun _ => class m) X))
    (fun m X => Return (map (fun _ => probabilities m) X))
    fit
    (fun m => Return (importances m))
    (fun q => q)
    (fun q => q)
    FeatureEngineering.iso_to_datetime
    (fun s => FeatureEngineering.iso_to_datetime (VStr s))
    format_2f
    (fun s => option_map (fun n => inject_Z (Z.of_N n)) (PyStr.parse_digits s)).

(** A catalog entry of the registry. *)
Definition model_entry (i v t : string) : Registry.AIModelInfo :=
  Registry.mkAIModelInfo i "Model" v t (95 # 100) 0%Z 0%Z 0%Z.

Definition catalog (l : list Registry.AIModelInfo) : Registry.state :=
  Registry.mkState l [].

Definition ambient (prefix : string) (t : Z) : Registry.ambient :=
  Registry.mkAmbient (fun k => prefix +:+ "-" +:+ Sklearn.decimal (Z.of_nat k)) t.

(** A record of the KYC scorer. *)
Definition kyc_record (amount quality country failed : Q) : Kyc.frame :=
  [ ("transaction_amount", VNum amount); ("transaction_time", VStr "2024-03-05T14:30:00");
    ("transaction_frequency", VNum 3); ("user_age", VNum 40);
    ("account_age", VNum 2); ("previous_fraud_reports", VNum 0);
    ("document_quality", VNum quality); ("document_age", VNum 1);
    ("country_risk_score", VNum country); ("ip_risk_score", VNum (1 # 10));
    ("login_attempts", VNum 1); ("failed_logins", VNum failed);
    ("document_type", VStr "passport") ].

(** A preprocessed record, with its 15 numerical columns. *)
Definition kyc_row (amount : Q) : Kyc.frame :=
  map (fun c => (c, VNum amount)) Kyc.feature_columns
  ++ [("doc_type_passport", VBool true)].

(** A scaler fitted on the 15 columns of such a record. *)
Definition kyc_scaler : StandardScaler :=
  mkStandardScaler (repeat 1%Q 15) (repeat 1%Q 15) 10.

Definition kyc_store (m : classifier) : Kyc.store library :=
  {[ "model.joblib" := (m, kyc_scaler) ]}.

(** A record of the AML scorer. *)
Definition aml_record (amount : Q) : gmap string value :=
  list_to_map
    [ ("transaction_time", VStr "2024-03-05T14:30:00");
      ("amount", VNum amount); ("transaction_count", VNum 4);
      ("average_amount", VNum 120); ("amount_deviation", VNum (1 # 2));
      ("user_age", VNum 40); ("account_age", VNum 2);
      ("country_risk", VNum (3 # 10)); ("ip_risk", VNum (1 # 10));
      ("login_attempts", VNum 1); ("failed_logins", VNum 0);
      ("device_changes", VNum 0); ("pep_status", VBool false);
      ("sanction_list", VBool false); ("watch_list", VBool true) ].

End Stub.

(** ** The routes of the registry ([routers/models.py]) *)

Module Router.
Import Py Registry.

(** [GET /]: the list, or a 500 when the service raises (it does not, in
    this model of the file). *)
Definition list_models (amb : ambient) (st : state)
  : http_result (list AIModelInfo) * state :=
  let '(models, st') := Registry.list_models amb st in (Ok models, st').

(** [GET /{model_id}]: a 404 for [None]. *)
Definition get_model (model_id : string) (st : state) : http_result AIModelInfo :=
  match Registry.get_model model_id st with
  | Some m => Ok m
  | None => NotFound "Model not found"
  end.

(** [POST /upload/{model_type}]: every exception of the service, the
    [ValueError] of an unknown type included, becomes a 500 whose detail
    carries the message of the exception. *)
Definition upload_model (amb : ambient) (model_path : string)
    (model_type model_name model_version ext payload : string) (st : state)
  : http_result (string * string) * state :=
  match Registry.upload_model amb model_path model_type model_name
          model_version ext payload st with
  | (Return model_id, st') => (Ok (model_id, "Model uploaded successfully"), st')
  | (Raise _, st') =>
      (ServerError ("Error uploading model: Invalid model type: " +:+ model_type), st')
  end.

End Router.

(** ** The command line of the KYC scorer ([fraud_detection.py], [__main__]) *)

Module KycMain.
Import Py Sklearn Kyc.

Section WithLibrary.
Context (L : library).

(** [json.loads] on the third argument, as [predict] and as [update] read
    it. *)
Variable loads_features : string -> option frame.
Variable loads_training : string -> training_data.

(** What the process printed before [sys.exit(0)]. *)
Inductive printed :=
| Prediction (r : result)
| Updated.

(** The script: [argv] is [sys.argv], the name of the script first.  A
    usage error prints the usage and exits with status 1. *)
Definition main (argv : list string) (fs : store L) : outcome printed * store L :=
  match argv with
  | _ :: command :: model_path :: rest =>
      if String.eqb command "predict" then
        match rest with
        | [features_json] =>
            let '(r, fs') := predict L fs model_path (loads_features features_json) in
            (do r <- r; Return (Prediction r), fs')
        | _ => (Raise (SystemExit 1), fs)
        end
      else if String.eqb command "update" then
        match rest with
        | [training_data_json] =>
            let '(r, fs') := update L fs model_path (loads_training training_data_json) in
            (do _ <- r; Return Updated, fs')
        | _ => (Raise (SystemExit 1), fs)
        end
      else (Raise (SystemExit 1), fs)
  | _ => (Raise (SystemExit 1), fs)
  end.

End WithLibrary.

End KycMain.

(** ** The command line of the AML scorer ([fraud_detection.py], [main]) *)

Module AmlMain.
Import Py Sklearn Aml.

Section WithLibrary.
Context (L : library).

(** [json.loads] on the second argument, as [predict] and as [update] read
    it: [None] when the text is not JSON; a missing ['features'] or
    ['labels'] is a [None] component. *)
Variable loads_record : string -> option (gmap string value).
Variable loads_batch :
  string -> option (option (list (gmap string value)) * option (list Z)).

(** The parameters of the forest that [info] prints. *)
Variable n_estimators : classifier L -> Z.
Variable max_depth : classifier L -> Z.

Inductive printed :=
| Result (r : result)
| Status
| Info (estimators depth : Z) (feature_importance : list (string * Q)).

(** [main]: the object is built from the file [fraud_model.joblib] before
    the command is looked at; what remains of it after the process is the
    file. *)
Definition main (argv : list string) (file : option (classifier L))
  : outcome printed * option (classifier L) :=
  match argv with
  | _ :: command :: rest =>
      let self := init L file in
      if String.eqb command "predict" then
        match rest with
        | [] => (Raise (SystemExit 1), file)
        | data :: _ =>
            match loads_record data with
            | None => (Raise (Exception "JSONDecodeError"), file)
            | Some features =>
                let '(r, self') := predict L self features in
                (do r <- r; Return (Result r), model_file L self')
            end
        end
      else if String.eqb command "update" then
        match rest with
        | [] => (Raise (SystemExit 1), file)
        | data :: _ =>
            match loads_batch data with
            | None => (Raise (Exception "JSONDecodeError"), file)
            | Some (Some features_list, Some labels) =>
                let '(r, self') := update L self features_list labels in
                (do _ <- r; Return Status, model_file L self')
            | Some _ => (Raise (Exception "KeyError"), file)
            end
        end
      else if String.eqb command "info" then
        (do importances <- feature_importances_ L (model L self);
         Return (Info (n_estimators (model L self)) (max_depth (model L self))
                      (combine feature_names importances)),
         file)
      else (Raise (SystemExit 1), file)
  | _ => (Raise (SystemExit 1), file)
  end.

End WithLibrary.

End AmlMain.

(** ** The simulated analyses of the AI service

    [risk_service.py], [anomaly_service.py], [face_service.py] and
    [document_service.py] draw their results at random.  Each value of
    [random.random()] is an argument here, in the order of the draws, and
    the index that [random.choice] picks is another. *)

Module Simulation.
Import Py.

(** [RiskService._analyze_risk_simulation] *)
Definition _analyze_risk_simulation (u1 u2 u3 : Q) : Q * string * list string :=
  let risk_score := (5 + u1 * 20)%Q in
  let '(risk_level, risk_factors) :=
    if Qle_bool risk_score 15 then ("LOW", [])
    else if Qle_bool risk_score 50 then ("MEDIUM", ["UNUSUAL_LOCATION"])
    else ("HIGH", ["UNUSUAL_LOCATION"; "MULTIPLE_ATTEMPTS"; "IP_FRAUD_ASSOCIATION"]) in
  let risk_factors :=
    if Qltb u2 (2 # 10) then risk_factors ++ ["DEVICE_CHANGE"] else risk_factors in
  let risk_factors :=
    if Qltb u3 (1 # 10) then risk_factors ++ ["TIME_ANOMALY"] else risk_factors in
  (risk_score, risk_level, risk_factors).

Definition anomaly_types : list string :=
  [ "MULTIPLE_VERIFICATION_ATTEMPTS"; "DIFFERENT_DEVICE"; "UNUSUAL_TIME";
    "LOCATION_CHANGE"; "SUSPICIOUS_ACTIVITY_PATTERN" ].

(** [AnomalyService._detect_anomalies_simulation]: [choice] is the index
    [random.choice] draws, below the length of the list. *)
Definition _detect_anomalies_simulation (u1 u2 : Q) (choice : nat)
  : bool * Q * option string * list string :=
  let is_anomaly := Qltb u1 (1 # 10) in
  if is_anomaly then
    let anomaly_score := (70 + u2 * 30)%Q in
    let anomaly_type := nth choice anomaly_types "" in
    (is_anomaly, anomaly_score, Some anomaly_type,
     [ anomaly_type +:+ " detected";
       "Multiple verification attempts in short time";
       "Different device than usual" ])
  else (is_anomaly, (u2 * 30)%Q, None, []).

(** [FaceService._match_faces_simulation] *)
Definition _match_faces_simulation (u1 u2 : Q) : bool * Q :=
  let is_match := Qltb (15 # 100) u1 in
  if is_match then (is_match, (75 + u2 * 20)%Q)
  else (is_match, (30 + u2 * 40)%Q).

(** [DocumentService._check_authenticity] and [_detect_issues] *)
Definition _check_authenticity (u1 u2 : Q) : bool * Q :=
  (Qltb (1 # 10) u1, (70 + u2 * 25)%Q).

Definition _detect_issues (is_authentic : bool) : list string :=
  if negb is_authentic
  then ["Document appears to be manipulated"; "Security features missing"]
  else [].

End Simulation.

(** * Properties *)

(** ** Strings *)

Lemma ascii_compare_refl (c : ascii) : Ascii.compare c c = Eq.
Proof. unfold Ascii.compare. apply N.compare_refl. Qed.

Lemma ascii_compare_lt_trans (a b c : ascii) :
  Ascii.compare a b = Lt -> Ascii.compare b c = Lt -> Ascii.compare a c = Lt.
Proof.
  unfold Ascii.compare. rewrite !N.compare_lt_iff. lia.
Qed.

Lemma string_compare_refl (s : string) : String.compare s s = Eq.
Proof.
  induction s as [|c s IH]; simpl; [reflexivity|].
  now rewrite ascii_compare_refl.
Qed.

Lemma string_compare_lt_trans (a b c : string) :
  String.compare a b = Lt -> String.compare b c = Lt -> String.compare a c = Lt.
Proof.
  revert b c. induction a as [|x a IH]; intros [|y b] [|z c]; simpl;
    try discriminate; try reflexivity.
  destruct (Ascii.compare x y) eqn:Hxy; try discriminate.
  - apply Ascii.compare_eq_iff in Hxy. subst y.
    destruct (Ascii.compare x z) eqn:Hxz; try discriminate; auto.
    intros H1 H2. eapply IH; eauto.
  - intros _. destruct (Ascii.compare y z) eqn:Hyz; try discriminate.
    + apply Ascii.compare_eq_iff in Hyz. subst z. now rewrite Hxy.
    + intros _. now rewrite (ascii_compare_lt_trans _ _ _ Hxy Hyz).
Qed.

Lemma str_le_refl (a : string) : PyStr.le a a.
Proof. unfold PyStr.le, PyStr.lt, String.ltb. now rewrite string_compare_refl. Qed.

Lemma str_lt_le (a b : string) : PyStr.lt a b = true -> PyStr.le a b.
Proof.
  unfold PyStr.le, PyStr.lt, String.ltb. rewrite (String.compare_antisym b a).
  destruct (String.compare a b); simpl; congruence.
Qed.

Lemma str_le_trans (a b c : string) : PyStr.le a b -> PyStr.le b c -> PyStr.le a c.
Proof.
  unfold PyStr.le, PyStr.lt, String.ltb. intros Hab Hbc.
  destruct (String.compare c a) eqn:Hca; try reflexivity. exfalso.
  destruct (String.compare a b) eqn:Hab'.
  - apply String.compare_eq_iff in Hab'. subst b. now rewrite Hca in Hbc.
  - rewrite (string_compare_lt_trans _ _ _ Hca Hab') in Hbc. discriminate.
  - rewrite (String.compare_antisym b a), Hab' in Hab. discriminate.
Qed.

(** ** The registry *)

Section RegistryFacts.
Import Registry.

(** The head of the sorted list is an element with the greatest version
    string; the sorted list is empty only for the empty list. *)
Lemma sorted_head_max (l : list AIModelInfo) :
  match sorted_by_version_desc l with
  | [] => l = []
  | h :: _ => In h l /\ (forall y, In y l -> PyStr.le (version y) (version h))
  end.
Proof.
  induction l as [|x l IH]; [reflexivity|].
  unfold sorted_by_version_desc in *. cbn [fold_right].
  destruct (fold_right insert_desc [] l) as [|h t].
  - subst l. simpl. split; [now left|].
    intros y [<-|[]]. apply str_le_refl.
  - destruct IH as [Hin Hmax]. cbn [insert_desc].
    destruct (PyStr.lt (version x) (version h)) eqn:Hlt.
    + split; [now right|].
      intros y [<-|Hy]; [now apply str_lt_le|now apply Hmax].
    + split; [now left|].
      intros y [<-|Hy]; [apply str_le_refl|].
      eapply str_le_trans; [apply Hmax, Hy|exact Hlt].
Qed.

Lemma models_of_type_In (t : string) (l : list AIModelInfo) (m : AIModelInfo) :
  In m (models_of_type t l) <-> In m l /\ type m = t.
Proof.
  unfold models_of_type. rewrite filter_In, String.eqb_eq. reflexivity.
Qed.

(** [get_model_by_type] finds nothing exactly when the catalog has no
    entry of the type. *)
Lemma get_model_by_type_None (t : string) (st : state) :
  get_model_by_type t st = None <->
  forall m, In m (models_json st) -> type m <> t.
Proof.
  unfold get_model_by_type.
  pose proof (sorted_head_max (models_of_type t (models_json st))) as H.
  destruct (sorted_by_version_desc _) as [|h tl].
  - split; [intros _|reflexivity]. intros m Hm Ht.
    assert (Hin : In m (models_of_type t (models_json st)))
      by (apply models_of_type_In; auto).
    rewrite H in Hin. exact Hin.
  - split; [discriminate|]. intros Hno. exfalso.
    destruct H as [Hin _]. apply models_of_type_In in Hin.
    destruct Hin as [Hin Ht]. exact (Hno _ Hin Ht).
Qed.

(** What it finds is an entry of the type whose version string no other
    entry of the type exceeds, in the order of strings. *)
Lemma get_model_by_type_Some (t : string) (st : state) (m : AIModelInfo) :
  get_model_by_type t st = Some m ->
  In m (models_json st) /\ type m = t /\
  forall m', In m' (models_json st) -> type m' = t ->
             PyStr.le (version m') (version m).
Proof.
  unfold get_model_by_type.
  pose proof (sorted_head_max (models_of_type t (models_json st))) as H.
  destruct (sorted_by_version_desc _) as [|h tl]; [discriminate|].
  intros [= <-]. destruct H as [Hin Hmax].
  apply models_of_type_In in Hin. destruct Hin as [Hin Ht].
  repeat split; auto. intros m' Hm' Ht'. apply Hmax.
  apply models_of_type_In. auto.
Qed.

(** An entry of the type in the catalog is enough for the lookup to
    succeed. *)
Lemma get_model_by_type_succeeds (t : string) (st : state) :
  (exists m, In m (models_json st) /\ type m = t) ->
  exists m, get_model_by_type t st = Some m /\ type m = t.
Proof.
  intros (m0 & Hin & Ht).
  destruct (get_model_by_type t st) as [m|] eqn:Hget.
  - exists m. split; [reflexivity|]. now apply get_model_by_type_Some in Hget.
  - exfalso. rewrite get_model_by_type_None in Hget. exact (Hget _ Hin Ht).
Qed.

(** No request removes an entry from a catalog that is not empty. *)
Lemma step_keeps_entries (amb : ambient) (r : request) (st : state) (m : AIModelInfo) :
  In m (models_json st) -> In m (models_json (step amb r st)).
Proof.
  intros Hin. destruct r; simpl; auto.
  - unfold list_models. destruct (models_json st) eqn:E; [destruct Hin|].
    simpl. rewrite E. exact Hin.
  - unfold upload_model. destruct (model_dir _ _); simpl; auto.
    apply in_or_app. now left.
Qed.

Lemma run_keeps_entries (rs : list (ambient * request)) (st : state) (m : AIModelInfo) :
  In m (models_json st) -> In m (models_json (run rs st)).
Proof.
  revert st. induction rs as [|[amb r] rs IH]; intros st Hin; simpl; auto.
  apply IH. now apply step_keeps_entries.
Qed.

(** The seeded catalog has one entry of each known type. *)
Lemma default_models_types (amb : ambient) :
  map type (default_models amb) = known_types.
Proof. reflexivity. Qed.

(** The example of the specification: among 1.2.0, 1.10.0 and 2.0.0 the
    lookup returns 2.0.0, in whatever order they were published. *)
Example get_model_by_type_three_versions :
  option_map version
    (get_model_by_type "RISK"
       (Stub.catalog [ Stub.model_entry "a" "1.2.0" "RISK";
                       Stub.model_entry "b" "2.0.0" "RISK";
                       Stub.model_entry "c" "1.10.0" "RISK";
                       Stub.model_entry "d" "9.0.0" "FACE" ]))
  = Some "2.0.0".
Proof. reflexivity. Qed.

(** C1 (the code departs from the claim).  [get_model_by_type] orders the
    versions as strings: with 1.2.0 and 1.10.0 published for a type it
    returns 1.2.0, although 1.10.0 is the greater semantic version
    (major, minor and patch compared as integers); with no entry of the
    type the router answers NotFound. *)
Theorem get_model_by_type_compares_strings :
  let st := Stub.catalog [ Stub.model_entry "a" "1.2.0" "RISK";
                           Stub.model_entry "b" "1.10.0" "RISK" ] in
  option_map version (get_model_by_type "RISK" st) = Some "1.2.0"
  /\ semver "1.2.0" = Some (1, 2, 0)%N
  /\ semver "1.10.0" = Some (1, 10, 0)%N
  /\ semver_lt (1, 2, 0)%N (1, 10, 0)%N = true
  /\ route_get_model_by_type "FACE" st = NotFound "No model found for type: FACE".
Proof. cbv zeta. repeat split; reflexivity. Qed.

(** The entries [_create_default_models] writes, field by field. *)
Lemma default_models_fields (amb : ambient) :
  map name (default_models amb)
  = [ "Document Verification Model"; "Face Recognition Model";
      "Risk Analysis Model"; "Anomaly Detection Model" ]
  /\ map version (default_models amb) = ["1.0.0"; "1.0.0"; "1.0.0"; "1.0.0"]
  /\ map accuracy (default_models amb)
     = [98 # 100; 95 # 100; 92 # 100; 90 # 100]%Q
  /\ map id (default_models amb) = map (uuid4 amb) [0; 1; 2; 3]%nat
  /\ Forall (fun m => last_trained_at m = now amb /\ created_at m = now amb
                      /\ updated_at m = now amb) (default_models amb).
Proof.
  repeat split; try reflexivity.
  unfold default_models. repeat constructor.
Qed.

(** C9, as the code has it.  A [list_models] call that finds the catalog
    empty returns and stores four default entries, one for each known
    type in the order DOCUMENT, FACE, RISK, ANOMALY, with fixed names,
    version 1.0.0 and fixed accuracies, the ids drawn at the call and the
    time of the call for their three dates, and leaves the model files as
    they were; after it, whatever requests follow, the lookup by any of
    the four types finds an entry of that type. *)
Theorem list_models_seeds_known_types
    (amb : ambient) (st0 : state) (rs : list (ambient * request)) (t : string) :
  models_json st0 = [] ->
  In t known_types ->
  let st := snd (list_models amb st0) in
  fst (list_models amb st0) = models_json st
  /\ model_files st = model_files st0
  /\ map type (models_json st) = known_types
  /\ map name (models_json st)
     = [ "Document Verification Model"; "Face Recognition Model";
         "Risk Analysis Model"; "Anomaly Detection Model" ]
  /\ map version (models_json st) = ["1.0.0"; "1.0.0"; "1.0.0"; "1.0.0"]
  /\ map accuracy (models_json st) = [98 # 100; 95 # 100; 92 # 100; 90 # 100]%Q
  /\ map id (models_json st) = map (uuid4 amb) [0; 1; 2; 3]%nat
  /\ Forall (fun m => last_trained_at m = now amb /\ created_at m = now amb
                      /\ updated_at m = now amb) (models_json st)
  /\ exists m, get_model_by_type t (run rs st) = Some m /\ type m = t.
Proof.
  intros Hempty Ht st.
  assert (Hst : st = mkState (default_models amb) (model_files st0)).
  { subst st. unfold list_models. now rewrite Hempty. }
  assert (Hfst : fst (list_models amb st0) = default_models amb).
  { unfold list_models. now rewrite Hempty. }
  rewrite Hfst, Hst. cbn [models_json model_files].
  destruct (default_models_fields amb) as (Hn & Hv & Ha & Hi & Hd).
  split; [reflexivity|]. split; [reflexivity|]. split; [reflexivity|].
  split; [exact Hn|]. split; [exact Hv|]. split; [exact Ha|].
  split; [exact Hi|]. split; [exact Hd|].
  apply get_model_by_type_succeeds.
  rewrite <- (default_models_types amb) in Ht.
  apply in_map_iff in Ht. destruct Ht as (m & Hm & Hin).
  exists m. split; [|exact Hm]. now apply run_keeps_entries.
Qed.

Lemma list_models_seeds_known_types_witness :
  let amb := Stub.ambient "id" 7 in
  let rs := [ (amb, GetModelByType "RISK");
              (Stub.ambient "up" 9, UploadModel "./models" "RISK" "m" "0.9.0" ".bin" "payload");
              (amb, ListModels) ] in
  let st := snd (list_models amb init) in
  models_json init = []
  /\ In "RISK" known_types
  /\ models_json st
     = [ mkAIModelInfo "id-0" "Document Verification Model" "1.0.0" "DOCUMENT"
           (98 # 100) 7%Z 7%Z 7%Z;
         mkAIModelInfo "id-1" "Face Recognition Model" "1.0.0" "FACE"
           (95 # 100) 7%Z 7%Z 7%Z;
         mkAIModelInfo "id-2" "Risk Analysis Model" "1.0.0" "RISK"
           (92 # 100) 7%Z 7%Z 7%Z;
         mkAIModelInfo "id-3" "Anomaly Detection Model" "1.0.0" "ANOMALY"
           (90 # 100) 7%Z 7%Z 7%Z ]
  /\ (fst (list_models amb init) = models_json st
      /\ model_files st = model_files init
      /\ map type (models_json st) = known_types
      /\ map name (models_json st)
         = [ "Document Verification Model"; "Face Recognition Model";
             "Risk Analysis Model"; "Anomaly Detection Model" ]
      /\ map version (models_json st) = ["1.0.0"; "1.0.0"; "1.0.0"; "1.0.0"]
      /\ map accuracy (models_json st) = [98 # 100; 95 # 100; 92 # 100; 90 # 100]%Q
      /\ map id (models_json st) = map (uuid4 amb) [0; 1; 2; 3]%nat
      /\ Forall (fun m => last_trained_at m = now amb /\ created_at m = now amb
                          /\ updated_at m = now amb) (models_json st)
      /\ exists m, get_model_by_type "RISK" (run rs st) = Some m /\ type m = "RISK").
Proof.
  intros amb rs st.
  assert (H0 : models_json init = []) by reflexivity.
  assert (H1 : In "RISK" known_types) by (simpl; auto).
  split; [exact H0|]. split; [exact H1|]. split; [reflexivity|].
  exact (list_models_seeds_known_types amb init rs "RISK" H0 H1).
Defined.

(** After an upload, [list_models] finds the catalog not empty and seeds
    nothing: the types without an upload stay without an entry. *)
Example upload_before_list_models_seeds_nothing :
  let st := run [ (Stub.ambient "up" 5,
                   UploadModel "./models" "RISK" "m" "0.9.0" ".bin" "payload");
                  (Stub.ambient "id" 7, ListModels) ] init in
  map (fun t => option_map version (get_model_by_type t st)) known_types
  = [None; None; Some "0.9.0"; None].
Proof. reflexivity. Qed.

(** C9 as stated fails: a lookup by type is a registry use that seeds
    nothing, so on the empty catalog it finds nothing, for RISK as for each
    of the four types, and leaves the catalog empty; and the seeded entries are not
    determined by the catalog, since their ids and dates are drawn at the
    call. *)
Lemma lookup_on_empty_catalog_not_found :
  get_model_by_type "RISK" init = None
  /\ route_get_model_by_type "RISK" init = NotFound "No model found for type: RISK"
  /\ step (Stub.ambient "id" 0) (GetModelByType "RISK") init = init
  /\ map (fun t => get_model_by_type t init) known_types = [None; None; None; None]
  /\ fst (list_models (Stub.ambient "id" 0) init)
     <> fst (list_models (Stub.ambient "other" 1) init).
Proof. repeat split. discriminate. Qed.

End RegistryFacts.

(** ** Splitting strings *)

Lemma split_char_no_sep (c : ascii) (s : string) :
  PyStr.contains_char c s = false -> PyStr.split_char c s = [s].
Proof.
  induction s as [|d s IH]; simpl; [reflexivity|].
  destruct (Ascii.eqb c d); [discriminate|].
  intros H. now rewrite (IH H).
Qed.

Lemma split_char_app (c : ascii) (l r : string) :
  PyStr.contains_char c l = false ->
  PyStr.split_char c (l +:+ String c r) = l :: PyStr.split_char c r.
Proof.
  induction l as [|d l IH]; simpl.
  - intros _. now rewrite Ascii.eqb_refl.
  - destruct (Ascii.eqb c d); [discriminate|].
    intros H. now rewrite (IH H).
Qed.

Lemma contains_char_app (c : ascii) (l r : string) :
  PyStr.contains_char c (l +:+ String c r) = true.
Proof.
  induction l as [|d l IH]; simpl.
  - now rewrite Ascii.eqb_refl.
  - now destruct (Ascii.eqb c d).
Qed.

(** The split on one character is the general split at a separator of
    length one. *)
Lemma split_char_is_split (c : ascii) (s : string) :
  PyStr.split (String c EmptyString) s = PyStr.split_char c s.
Proof.
  unfold PyStr.split.
  assert (H : forall s, exists p ps,
             PyStr.split_go (String c EmptyString) s 0 = (p, ps)
             /\ PyStr.split_char c s = p :: ps).
  { clear s. induction s as [|d s (p & ps & Hgo & Hsp)].
    - exists EmptyString, []. split; reflexivity.
    - cbn [PyStr.split_go PyStr.split_char String.prefix String.length Nat.sub].
      rewrite Hgo, Hsp.
      destruct (Ascii.eqb_spec c d) as [->|Hne].
      + destruct (ascii_dec d d) as [_|Hn]; [|congruence].
        destruct s; eexists _, _; split; reflexivity.
      + destruct (ascii_dec c d) as [He|_]; [congruence|].
        eexists _, _; split; reflexivity. }
  destruct (H s) as (p & ps & -> & ->). reflexivity.
Qed.


(** ** Feature engineering *)

Section FeatureEngineeringFacts.
Import Py FeatureEngineering.

Lemma contains_char_nonempty (c : ascii) (s : string) :
  PyStr.contains_char c s = true -> truthy (VStr s) = true.
Proof. destruct s; [discriminate|reflexivity]. Qed.

(** With an ['@'] in it, the address gives the lowercased text between
    its first ['@'] and the next one, or the end. *)
Lemma extract_email_domain_second_piece (str_lower : string -> string)
    (l d : string) (rest : list string) (s : string) :
  PyStr.contains_char "@" s = true ->
  PyStr.split_char "@" s = l :: d :: rest ->
  extract_email_domain str_lower (VStr s) = str_lower d.
Proof.
  intros Hc Hsplit. unfold extract_email_domain.
  rewrite (contains_char_nonempty _ _ Hc), Hc, Hsplit. reflexivity.
Qed.

(** C6, as the code has it.  Whatever [str.lower] does to a string,
    [extract_email_domain] answers ["unknown"] for a missing address, for
    any value that is not a string and for a string without ['@'] (the
    empty one included); for a string with one ['@'] it answers the
    lowercased text after it; with more than one ['@'] it answers the
    lowercased text between the first two.  On ["a@Example.COM"] the
    answer is the lowercased ["Example.COM"], which is ["example.com"]. *)
Theorem extract_email_domain_spec (str_lower : string -> string) :
  extract_email_domain str_lower VNone = "unknown"
  /\ (forall v, (forall s, v <> VStr s) ->
                extract_email_domain str_lower v = "unknown")
  /\ (forall s, PyStr.contains_char "@" s = false ->
                extract_email_domain str_lower (VStr s) = "unknown")
  /\ (forall l d, PyStr.contains_char "@" l = false ->
                  PyStr.contains_char "@" d = false ->
                  extract_email_domain str_lower (VStr (l +:+ "@" +:+ d))
                  = str_lower d)
  /\ (forall l d r, PyStr.contains_char "@" l = false ->
                    PyStr.contains_char "@" d = false ->
                    extract_email_domain str_lower
                      (VStr (l +:+ "@" +:+ d +:+ "@" +:+ r))
                    = str_lower d)
  /\ extract_email_domain str_lower (VStr "a@Example.COM")
     = str_lower "Example.COM"
  /\ PyStr.ascii_lower "Example.COM" = "example.com".
Proof.
  split; [reflexivity|]. split; [|split; [|split; [|split; [|split]]]].
  - intros v Hv. destruct v; try reflexivity. now destruct (Hv s).
  - intros s Hs. unfold extract_email_domain. rewrite Hs.
    now rewrite orb_true_r.
  - intros l d Hl Hd.
    apply (extract_email_domain_second_piece str_lower l d []).
    + apply contains_char_app.
    + change (l +:+ "@" +:+ d) with (l +:+ String "@" d).
      rewrite (split_char_app "@" l d Hl).
      now rewrite (split_char_no_sep _ _ Hd).
  - intros l d r Hl Hd.
    apply (extract_email_domain_second_piece str_lower l d
             (PyStr.split_char "@" r)).
    + apply contains_char_app.
    + change (l +:+ "@" +:+ d +:+ "@" +:+ r)
        with (l +:+ String "@" (d +:+ String "@" r)).
      rewrite (split_char_app "@" l _ Hl).
      now rewrite (split_char_app "@" d r Hd).
  - reflexivity.
  - reflexivity.
Qed.

(** C6 as stated fails on an address with two ['@']: the answer is the
    lowercased text between them, neither ["unknown"] nor the lowercased
    text after an ['@']. *)
Lemma extract_email_domain_two_ats :
  (forall str_lower, extract_email_domain str_lower (VStr "a@B@c") = str_lower "B")
  /\ extract_email_domain PyStr.ascii_lower (VStr "a@B@c") = "b"
  /\ extract_email_domain PyStr.ascii_lower (VStr "a@B@c") <> "unknown"
  /\ extract_email_domain PyStr.ascii_lower (VStr "a@B@c") <> PyStr.ascii_lower "B@c"
  /\ extract_email_domain PyStr.ascii_lower (VStr "a@B@c") <> PyStr.ascii_lower "c".
Proof. split; [reflexivity|]. repeat split; discriminate. Qed.

(** The age does not depend on the clock when there is no usable
    [date_of_birth], when the record carries an unusable [created_at], or
    when it carries a [created_at] and pandas reads both dates alike at
    the two times. *)
Lemma calculate_age_clock_independent
    (to_datetime_at : string -> value -> option Z) (now1 now2 : string)
    (data : gmap string value) :
  truthy (get data "date_of_birth") = false
  \/ (exists created, data !! "created_at" = Some created
        /\ (truthy created = false
            \/ (to_datetime_at now1 created = to_datetime_at now2 created
                /\ to_datetime_at now1 (get data "date_of_birth")
                   = to_datetime_at now2 (get data "date_of_birth")))) ->
  calculate_age (to_datetime_at now1) (get data "date_of_birth")
    (get_default data "created_at" (VStr now1))
  = calculate_age (to_datetime_at now2) (get data "date_of_birth")
    (get_default data "created_at" (VStr now2)).
Proof.
  intros [Hdob|(created & Hc & [Hfalsy|[Hcr Hd]])]; unfold calculate_age.
  - now rewrite Hdob.
  - unfold get_default. rewrite Hc. cbn [default from_option id].
    rewrite Hfalsy. now rewrite !orb_true_r.
  - unfold get_default. rewrite Hc. cbn [default from_option id].
    now rewrite Hcr, Hd.
Qed.

(** C5, as the code has it.  [engineer_features] is a function of the
    record and of the clock.  The clock does not matter, and two calls at
    any two times give the same features, for a record with no usable
    [date_of_birth], and for a record that carries a [created_at] which is
    unusable or which, like the [date_of_birth], pandas reads to the same
    instant at both times (an absolute date, not a word such as "now" or
    "today"). *)
Theorem engineer_features_clock_independent
    (to_datetime_at : string -> value -> option Z)
    (str_lower : string -> string) (now1 now2 : string)
    (data : gmap string value) :
  truthy (get data "date_of_birth") = false
  \/ (exists created, data !! "created_at" = Some created
        /\ (truthy created = false
            \/ (to_datetime_at now1 created = to_datetime_at now2 created
                /\ to_datetime_at now1 (get data "date_of_birth")
                   = to_datetime_at now2 (get data "date_of_birth")))) ->
  engineer_features to_datetime_at str_lower now1 data
  = engineer_features to_datetime_at str_lower now2 data.
Proof.
  intros H. unfold engineer_features.
  now rewrite (calculate_age_clock_independent to_datetime_at now1 now2 data H).
Qed.

Lemma engineer_features_clock_independent_witness :
  let data : gmap string value :=
    {[ "date_of_birth" := VStr "1990-01-01"; "created_at" := VStr "2020-01-01";
       "email" := VStr "a@Example.COM" ]} in
  let now1 := "2024-05-01T10:00:00" in
  let now2 := "2025-06-02T11:30:00" in
  (truthy (get data "date_of_birth") = false
   \/ (exists created, data !! "created_at" = Some created
         /\ (truthy created = false
             \/ (iso_to_datetime_at now1 created = iso_to_datetime_at now2 created
                 /\ iso_to_datetime_at now1 (get data "date_of_birth")
                    = iso_to_datetime_at now2 (get data "date_of_birth")))))
  /\ engineer_features iso_to_datetime_at PyStr.ascii_lower now1 data
     = engineer_features iso_to_datetime_at PyStr.ascii_lower now2 data
  /\ option_map age (match engineer_features iso_to_datetime_at PyStr.ascii_lower now1 data with
                     | Return f => Some f
                     | Raise _ => None
                     end)
     = Some (Some (inject_Z 10957 / (36525 # 100))%Q).
Proof.
  intros data now1 now2.
  assert (H : truthy (get data "date_of_birth") = false
   \/ (exists created, data !! "created_at" = Some created
         /\ (truthy created = false
             \/ (iso_to_datetime_at now1 created = iso_to_datetime_at now2 created
                 /\ iso_to_datetime_at now1 (get data "date_of_birth")
                    = iso_to_datetime_at now2 (get data "date_of_birth"))))).
  { right. exists (VStr "2020-01-01").
    split; [reflexivity|]. right. split; reflexivity. }
  split; [exact H|]. split.
  - exact (engineer_features_clock_independent iso_to_datetime_at
             PyStr.ascii_lower now1 now2 data H).
  - reflexivity.
Defined.

(** C5 as stated fails when [created_at] is missing: the age is then
    taken at the time of the call, and two calls on the same record a year
    apart give different feature vectors.  It fails as well for a record
    whose [created_at] is the word "today", which pandas reads against the
    clock. *)
Lemma engineer_features_depends_on_clock :
  (let data : gmap string value := {[ "date_of_birth" := VStr "1990-01-01" ]} in
   engineer_features iso_to_datetime_at PyStr.ascii_lower "2020-01-01T00:00:00" data
   <> engineer_features iso_to_datetime_at PyStr.ascii_lower "2021-01-01T00:00:00" data)
  /\ (let data : gmap string value :=
        {[ "date_of_birth" := VStr "1990-01-01"; "created_at" := VStr "today" ]} in
      engineer_features iso_to_datetime_at PyStr.ascii_lower "2020-01-01T00:00:00" data
      <> engineer_features iso_to_datetime_at PyStr.ascii_lower "2021-01-01T00:00:00" data).
Proof. split; vm_compute; discriminate. Qed.

(** The example of the specification: thirty years, less the day or so
    that 365.25-day years lose. *)
Example calculate_age_thirty :
  calculate_age iso_to_datetime (VStr "1990-01-01") (VStr "2020-01-01")
  = Some (inject_Z 10957 / (36525 # 100))%Q.
Proof. reflexivity. Qed.

End FeatureEngineeringFacts.

(** ** The KYC scorer *)

Section KycFacts.
Import Py Sklearn Kyc.
Local Open Scope Q_scope.

Lemma Qltb_lt (a b : Q) : Qltb a b = true <-> a < b.
Proof.
  unfold Qltb. rewrite negb_true_iff. split.
  - intros H. apply Qnot_le_lt. intros Hle.
    apply Qle_bool_iff in Hle. congruence.
  - intros H. destruct (Qle_bool b a) eqn:E; [|reflexivity].
    apply Qle_bool_iff in E. exfalso. exact (Qlt_not_le _ _ H E).
Qed.

Lemma Qltb_ge (a b : Q) : Qltb a b = false <-> b <= a.
Proof.
  unfold Qltb. rewrite negb_false_iff. apply Qle_bool_iff.
Qed.

(** C2.  [calculate_risk_level] cuts the scores into three tiers that
    neither overlap nor leave a gap: low exactly below 33, medium exactly
    from 33 up to but not including 67, high exactly from 67 on (the code
    spells the tiers in lower case); so 32.9 is low, 33.0 and 66.9 are
    medium, 67.0 is high. *)
Theorem calculate_risk_level_partition (score : Q) :
  (calculate_risk_level score = "low"%string <-> score < 33)
  /\ (calculate_risk_level score = "medium"%string <-> 33 <= score /\ score < 67)
  /\ (calculate_risk_level score = "high"%string <-> 67 <= score)
  /\ calculate_risk_level (329 # 10) = "low"%string
  /\ calculate_risk_level 33 = "medium"%string
  /\ calculate_risk_level (669 # 10) = "medium"%string
  /\ calculate_risk_level 67 = "high"%string.
Proof.
  unfold calculate_risk_level.
  destruct (Qltb score 33) eqn:H33; destruct (Qltb score 67) eqn:H67;
    try apply Qltb_lt in H33; try apply Qltb_ge in H33;
    try apply Qltb_lt in H67; try apply Qltb_ge in H67;
    repeat split; intros; try reflexivity; try discriminate; lra.
Qed.

Lemma calculate_risk_level_high (score : Q) :
  calculate_risk_level score = "high"%string <-> 67 <= score.
Proof.
  unfold calculate_risk_level.
  destruct (Qltb score 33) eqn:H33; destruct (Qltb score 67) eqn:H67;
    try apply Qltb_lt in H33; try apply Qltb_ge in H33;
    try apply Qltb_lt in H67; try apply Qltb_ge in H67;
    split; intros; try reflexivity; try discriminate; lra.
Qed.

Lemma bind_Return {A B} (m : outcome A) (f : A -> outcome B) (b : B) :
  Py.bind m f = Return b -> exists a, m = Return a /\ f a = Return b.
Proof. destruct m as [a|e]; simpl; [eauto|discriminate]. Qed.

(** What [scoring_result] returns, field by field. *)
Lemma scoring_result_Return (proba : list Q) (prediction : Z) (X : frame)
    (r : result) :
  scoring_result proba prediction X = Return r ->
  exists p1, nth_error proba 1 = Some p1
    /\ risk_score r = p1 * 100
    /\ confidence r = p1
    /\ risk_level r = calculate_risk_level (p1 * 100)
    /\ generate_explanation prediction X = Return (explanation r)
    /\ risk_factors r = PyStr.split " | " (explanation r)
    /\ recommended_action r
       = (if Qltb 66 (p1 * 100) then "Enhanced verification required"
          else "Standard verification")%string.
Proof.
  unfold scoring_result. intros H.
  apply bind_Return in H. destruct H as (p1 & Hp & H).
  apply bind_Return in H. destruct H as (e1 & He1 & H).
  apply bind_Return in H. destruct H as (e2 & He2 & H).
  rewrite He1 in He2. injection He2 as <-.
  destruct (nth_error proba 1) as [p|] eqn:Hn; [|discriminate].
  injection Hp as ->. injection H as <-.
  exists p1. cbn [risk_score confidence risk_level explanation risk_factors
                  recommended_action].
  repeat split; auto.
Qed.

(** The predicted class plays no part in the result. *)
Lemma scoring_result_ignores_prediction (proba : list Q) (c c' : Z) (X : frame) :
  scoring_result proba c X = scoring_result proba c' X.
Proof. reflexivity. Qed.

(** [predict] returns what [scoring_result] makes of the classifier's
    output on the scaled record, and writes no file. *)
Lemma predict_Return (L : library) (fs : store L) (model_path : string)
    (features : option frame) (r : result) :
  fst (predict L fs model_path features) = Return r ->
  exists model scaler X X_scaled proba rest c,
    fs !! model_path = Some (model, scaler)
    /\ predict_proba L model X_scaled = Return (proba :: rest)
    /\ scoring_result proba c X = Return r.
Proof.
  unfold predict. cbn [fst]. intros H.
  apply bind_Return in H. destruct H as ([model scaler] & Hload & H).
  apply bind_Return in H. destruct H as (f & _ & H).
  apply bind_Return in H. destruct H as (X & _ & H).
  apply bind_Return in H. destruct H as (row & _ & H).
  apply bind_Return in H. destruct H as (X_scaled & _ & H).
  apply bind_Return in H. destruct H as (probas & Hprobas & H).
  apply bind_Return in H. destruct H as (proba & Hfirst & H).
  apply bind_Return in H. destruct H as (classes & _ & H).
  apply bind_Return in H. destruct H as (c & _ & H).
  destruct probas as [|proba' rest]; [discriminate|]. injection Hfirst as ->.
  exists model, scaler, X, X_scaled, proba, rest, c.
  repeat split; auto.
  unfold load_model in Hload. destruct (fs !! model_path); [|discriminate].
  now injection Hload as ->.
Qed.

Lemma predict_keeps_store (L : library) (fs : store L) (model_path : string)
    (features : option frame) :
  snd (predict L fs model_path features) = fs.
Proof. reflexivity. Qed.






(** The action is decided at 66, the high tier at 67. *)
Lemma scoring_result_action (proba : list Q) (prediction : Z) (X : frame)
    (r : result) :
  scoring_result proba prediction X = Return r ->
  (recommended_action r = "Enhanced verification required"%string
     <-> 66 < risk_score r)
  /\ (recommended_action r = "Standard verification"%string
     <-> risk_score r <= 66)
  /\ (risk_level r = "high"%string <-> 67 <= risk_score r).
Proof.
  intros H. apply scoring_result_Return in H.
  destruct H as (p1 & _ & -> & _ & -> & _ & _ & ->).
  split; [|split].
  - destruct (Qltb 66 (p1 * 100)) eqn:E.
    + apply Qltb_lt in E. split; auto.
    + apply Qltb_ge in E. split; [discriminate|]. lra.
  - destruct (Qltb 66 (p1 * 100)) eqn:E.
    + apply Qltb_lt in E. split; [discriminate|]. lra.
    + apply Qltb_ge in E. split; auto.
  - apply calculate_risk_level_high.
Qed.

(** C3 (the code departs from the claim).  The risk score is the
    probability of the positive class times 100, and a probability of
    0.95 gives the score 95, the high tier and the enhanced verification;
    but the action is decided at 66, not at the 67 of the high tier: a
    probability of 0.665 gives the score 66.5, the medium tier, and still
    the enhanced verification. *)
Theorem predict_action_threshold_is_66 :
  let record := Some (Stub.kyc_record 250 (9 # 10) (1 # 10) 0) in
  let run p :=
    fst (predict Stub.library
           (Stub.kyc_store (Stub.mkClassifier 1 [1 - p; p] [] 0))
           "model.joblib" record) in
  run (665 # 1000)
  = Return (mkResult "medium" ((665 # 1000) * 100) (665 # 1000)
              "No significant risk factors identified"
              ["No significant risk factors identified"%string]
              "Enhanced verification required")
  /\ (665 # 1000) * 100 == 665 # 10
  /\ run (95 # 100)
    = Return (mkResult "high" ((95 # 100) * 100) (95 # 100)
                "No significant risk factors identified"
                ["No significant risk factors identified"%string]
                "Enhanced verification required")
  /\ (95 # 100) * 100 == 95.
Proof. cbv zeta. repeat split; vm_compute; reflexivity. Qed.

(** ** Updating the KYC model *)

Lemma mapM_length {A B} (f : A -> outcome B) (l : list A) (l' : list B) :
  mapM f l = Return l' -> length l' = length l.
Proof.
  revert l'. induction l as [|a l IH]; simpl; intros l' H.
  - now injection H as <-.
  - apply bind_Return in H. destruct H as (b & _ & H).
    apply bind_Return in H. destruct H as (bs & Hbs & H).
    injection H as <-. simpl. now rewrite (IH _ Hbs).
Qed.

Lemma scaler_transform_length (L : library) (s : option StandardScaler)
    (X X' : matrix) :
  scaler_transform L s X = Return X' -> length X' = length X.
Proof.
  unfold scaler_transform. destruct s as [s|]; [|discriminate].
  destruct (forallb _ X); [|discriminate].
  intros [= <-]. apply length_map.
Qed.






End KycFacts.

(** ** The AML scorer *)

Section AmlFacts.
Import Py Sklearn Aml.
Local Open Scope Q_scope.

Lemma significant_In (fi : list (string * Q)) (f : string) (w : Q) :
  In (f, w) (significant fi) <-> In (f, w) fi /\ 1 # 10 < w.
Proof.
  unfold significant. rewrite filter_In. simpl. now rewrite Qltb_lt.
Qed.

(** The loop keeps the order of the dictionary, which is the order of the
    feature names. *)
Lemma significant_order (fi : list (string * Q)) :
  sublist (map fst (significant fi)) (map fst fi).
Proof.
  induction fi as [|[f w] fi IH]; simpl; [constructor|].
  destruct (Qltb (1 # 10) w); simpl; now constructor.
Qed.

Lemma combine_fst_sublist {A B} (a : list A) (b : list B) :
  sublist (map fst (combine a b)) a.
Proof.
  revert b. induction a as [|x a IH]; intros [|y b]; simpl;
    try constructor; auto. apply sublist_nil_l.
Qed.

Lemma significant_none (names : list string) (importances : list Q) :
  Forall (fun w => w <= 1 # 10) importances ->
  significant (combine names importances) = [].
Proof.
  intros H. revert names.
  induction H as [|w ws Hw _ IH]; intros [|n names]; simpl; auto.
  apply Qltb_ge in Hw. rewrite Hw. apply IH.
Qed.

(** [preprocess_features] leaves the classifier of the object alone. *)
Lemma preprocess_features_model (L : library) (self : t L)
    (features : gmap string value) :
  model L (snd (preprocess_features L self features)) = model L self.
Proof.
  unfold preprocess_features. destruct (Py.bind _ _) as [[X s]|e]; reflexivity.
Qed.

(** What [predict] returns as explanation comes from the importances of
    the classifier alone. *)
Lemma predict_explanation (L : library) (self : t L)
    (features : gmap string value) (r : result) :
  fst (predict L self features) = Return r ->
  exists importances,
    feature_importances_ L (model L self) = Return importances
    /\ risk_factors r = risk_factors_of importances
    /\ explanation r = explanation_of (risk_factors r).
Proof.
  unfold predict.
  pose proof (preprocess_features_model L self features) as Hm.
  destruct (preprocess_features L self features) as [X self']. cbn [fst snd] in *.
  intros H.
  apply bind_Return in H. destruct H as (X' & _ & H).
  apply bind_Return in H. destruct H as (classes & _ & H).
  apply bind_Return in H. destruct H as (prediction & _ & H).
  apply bind_Return in H. destruct H as (probas & _ & H).
  apply bind_Return in H. destruct H as (probabilities & _ & H).
  apply bind_Return in H. destruct H as (level & _ & H).
  apply bind_Return in H. destruct H as (importances & Himp & H).
  apply bind_Return in H. destruct H as (p1 & _ & H).
  apply bind_Return in H. destruct H as (conf & _ & H).
  injection H as <-. exists importances. rewrite <- Hm. auto.
Qed.

(** The explanation of the KYC scorer when none of its four tests fires. *)
Lemma generate_explanation_none (prediction : Z) (X : Kyc.frame)
    (amount quality country failed : Q) :
  Kyc.col_get "transaction_amount" X = Some (VNum amount) ->
  Kyc.col_get "document_quality" X = Some (VNum quality) ->
  Kyc.col_get "country_risk_score" X = Some (VNum country) ->
  Kyc.col_get "failed_logins" X = Some (VNum failed) ->
  amount <= 10000 -> 7 # 10 <= quality -> country <= 7 # 10 -> failed <= 3 ->
  Kyc.generate_explanation prediction X
  = Return "No significant risk factors identified"%string.
Proof.
  intros Ha Hq Hc Hf Ha' Hq' Hc' Hf'.
  unfold Kyc.generate_explanation, Kyc.cell. rewrite Ha, Hq, Hc, Hf.
  cbn [Py.bind Kyc.as_number].
  apply Qltb_ge in Ha', Hq', Hc', Hf'. rewrite Ha', Hq', Hc', Hf'.
  reflexivity.
Qed.

(** C4, as the code has it.  In the AML scorer the risk factors are
    exactly the features whose importance in the classifier exceeds 0.1,
    each printed with its importance to two decimals, in the order of the
    feature names (not by importance); when no importance exceeds 0.1 the
    list is empty and the explanation is ["Risk factors: "]; both depend
    on the classifier alone.  In the KYC scorer the explanation comes
    from four fixed tests on the record, and reads ["No significant risk
    factors identified"] when none fires. *)
Theorem risk_factors_spec :
  (forall importances : list Q,
      let fi := combine feature_names importances in
      risk_factors_of importances = map label (significant fi)
      /\ (forall f w, In (f, w) (significant fi) <-> In (f, w) fi /\ 1 # 10 < w)
      /\ sublist (map fst (significant fi)) feature_names
      /\ (Forall (fun w => w <= 1 # 10) importances ->
          risk_factors_of importances = []
          /\ explanation_of (risk_factors_of importances) = "Risk factors: "%string))
  /\ (forall (L : library) (self : t L) (features : gmap string value) (r : result),
       fst (predict L self features) = Return r ->
       exists importances,
         feature_importances_ L (model L self) = Return importances
         /\ risk_factors r = risk_factors_of importances
         /\ explanation r = explanation_of (risk_factors r))
  /\ (forall (prediction : Z) (X : Kyc.frame) (amount quality country failed : Q),
       Kyc.col_get "transaction_amount" X = Some (VNum amount) ->
       Kyc.col_get "document_quality" X = Some (VNum quality) ->
       Kyc.col_get "country_risk_score" X = Some (VNum country) ->
       Kyc.col_get "failed_logins" X = Some (VNum failed) ->
       amount <= 10000 -> 7 # 10 <= quality -> country <= 7 # 10 -> failed <= 3 ->
       Kyc.generate_explanation prediction X
       = Return "No significant risk factors identified"%string).
Proof.
  split; [|split].
  - intros importances fi. split; [reflexivity|]. split; [|split].
    + apply significant_In.
    + etrans; [apply significant_order|apply combine_fst_sublist].
    + intros H. unfold risk_factors_of.
      rewrite (significant_none _ _ H). split; reflexivity.
  - apply predict_explanation.
  - apply generate_explanation_none.
Qed.

(** C4 as stated fails: with importances 0.2 for the first feature and
    0.5 for the second, the factors come in the order of the features,
    the smaller importance first; and with no importance above 0.1 the
    explanation is not the sentence of the specification. *)
Lemma risk_factors_in_feature_order :
  let importances := [2 # 10; 5 # 10; 5 # 100; 5 # 100; 5 # 100; 5 # 100; 5 # 100] in
  risk_factors_of importances = ["amount: 0.20"; "transaction_count: 0.50"]%string
  /\ map snd (significant (combine feature_names importances)) = [2 # 10; 5 # 10]
  /\ 2 # 10 < 5 # 10
  /\ explanation_of (risk_factors_of (repeat (1 # 14) 14)) = "Risk factors: "%string
  /\ explanation_of (risk_factors_of (repeat (1 # 14) 14))
     <> "no significant risk factors identified"%string.
Proof.
  cbv zeta. repeat split; try (vm_compute; reflexivity).
  vm_compute. discriminate.
Qed.

(** ** The scaler of the AML scorer *)

Lemma map_nth_seq {A B} (f : A -> B) (d : A) (pre row : list A) :
  map (fun j => f (nth j (pre ++ row) d)) (seq (length pre) (length row))
  = map f row.
Proof.
  revert pre. induction row as [|x row IH]; intros pre; [reflexivity|].
  cbn [length seq map]. rewrite nth_middle. f_equal.
  specialize (IH (pre ++ [x])).
  rewrite length_app, Nat.add_1_r, <- app_assoc in IH. exact IH.
Qed.

Lemma mean_single (x : Q) : mean [x] == x.
Proof. unfold mean, Qsum. cbn. rewrite Qred_correct. field. Qed.

Lemma variance_single (x : Q) : variance [x] = 0.
Proof.
  unfold variance. transitivity (Qred 0); [|reflexivity]. apply Qred_complete.
  cbn [map length Qsum fold_right]. rewrite mean_single. cbn. field.
Qed.

(** Fitted to one row, the scaler has that row for mean and no variance,
    and sends the row to zeros. *)
Lemma fit_transform_single (L : library) (row : list Q) :
  scaler_fit_transform L [row]
  = Return ([map (fun _ => 0) row],
            mkStandardScaler (map (fun x => mean [x]) row)
                             (map (fun _ => 0) row) 1).
Proof.
  unfold scaler_fit_transform, scaler_fit.
  cbn [forallb]. rewrite Nat.eqb_refl. cbn [andb Py.bind].
  rewrite map_map.
  assert (Hm : map (fun j => mean (column j [row])) (seq 0 (length row))
               = map (fun x => mean [x]) row)
    by exact (map_nth_seq (fun x => mean [x]) 0 [] row).
  assert (Hv : map (fun j => variance (column j [row])) (seq 0 (length row))
               = map (fun _ => 0) row).
  { transitivity (map (fun x => variance [x]) row);
      [exact (map_nth_seq (fun x => variance [x]) 0 [] row)|].
    apply map_ext. intros x. apply variance_single. }
  rewrite map_map, Hm, Hv.
  unfold scaler_transform. cbn [mean_ var_ forallb].
  rewrite length_map, Nat.eqb_refl. cbn [andb Py.bind map].
  do 3 f_equal. unfold scale_row. cbn [mean_ var_].
  clear. induction row as [|x row IH]; [reflexivity|].
  cbn [map combine]. rewrite IH. f_equal.
  change (scale_of_var L 0) with 1.
  transitivity (Qred 0); [|reflexivity]. apply Qred_complete.
  rewrite mean_single. field.
Qed.

(** Every request that [preprocess_features] accepts leaves the object
    with a scaler fitted to that request alone, and is scaled to a row of
    zeros. *)
Lemma preprocess_features_refits (L : library) (self : t L)
    (features : gmap string value) (X : matrix) :
  fst (preprocess_features L self features) = Return X ->
  exists row,
    feature_row L features = Return row
    /\ X = [map (fun _ => 0) row]
    /\ scaler L (snd (preprocess_features L self features))
       = Some (mkStandardScaler (map (fun x => mean [x]) row)
                                (map (fun _ => 0) row) 1).
Proof.
  unfold preprocess_features.
  destruct (item features "transaction_time") as [time|e]; cbn [Py.bind];
    [|discriminate].
  destruct (match time with
            | VStr s => match fromisoformat L s with
                        | Some _ => Return time
                        | None => Raise (Exception "ValueError")
                        end
            | _ => Return time
            end) as [?|e]; cbn [Py.bind]; [|discriminate].
  destruct (feature_row L features) as [row|e]; cbn [Py.bind]; [|discriminate].
  rewrite fit_transform_single. cbn [fst snd scaler].
  intros [= <-]. exists row. auto.
Qed.

(** C8 (the code departs from the claim).  The AML scorer fits its scaler
    to the one row of each request: a scaler fitted in training (mean 100
    in every column) is replaced, after a request for the amount 5000, by
    one whose mean is that request, and after a request for 90000 by
    another; both requests are scaled to the same row of zeros.  The KYC
    scorer transforms with the scaler of the file, which it does not
    write. *)
Theorem aml_preprocess_refits_scaler :
  let m := Stub.mkClassifier 1 [3 # 10; 7 # 10] [] 0 in
  let trained := mkStandardScaler (repeat 100 14) (repeat 4 14) 50 in
  let self := mkT Stub.library m (Some trained) (Some m) in
  let out1 := preprocess_features Stub.library self (Stub.aml_record 5000) in
  let out2 := preprocess_features Stub.library self (Stub.aml_record 90000) in
  fst out1 = Return [repeat 0 14]
  /\ fst out2 = Return [repeat 0 14]
  /\ scaler Stub.library (snd out1)
     = Some (mkStandardScaler
               [5000; 4; 120; 1 # 2; 40; 2; 3 # 10; 1 # 10; 1; 0; 0; 0; 0; 1]
               (repeat 0 14) 1)
  /\ scaler Stub.library (snd out1) <> scaler Stub.library self
  /\ scaler Stub.library (snd out1) <> scaler Stub.library (snd out2)
  /\ forall fs path features,
       snd (Kyc.predict Stub.library fs path features) = fs.
Proof.
  cbv zeta. repeat split; try (vm_compute; reflexivity);
    try (vm_compute; discriminate).
Qed.

End AmlFacts.

(** * Further properties of the registry *)

Section RegistryMore.
Import Py Registry.

Lemma model_dir_known (model_path t : string) :
  In t known_types <-> exists dir, model_dir model_path t = Some dir.
Proof.
  unfold model_dir, known_types. split.
  - intros [<-|[<-|[<-|[<-|[]]]]]; simpl; eauto.
  - intros [dir H].
    destruct (String.eqb_spec t "DOCUMENT") as [->|_]; [simpl; auto|].
    destruct (String.eqb_spec t "FACE") as [->|_]; [simpl; auto|].
    destruct (String.eqb_spec t "RISK") as [->|_]; [simpl; auto|].
    destruct (String.eqb_spec t "ANOMALY") as [->|_]; [simpl; auto 6|].
    discriminate.
Qed.

Lemma find_app_Some {A} (f : A -> bool) (l l' : list A) (a : A) :
  List.find f l = Some a -> List.find f (l ++ l') = Some a.
Proof.
  induction l as [|x l IH]; simpl; [discriminate|].
  destruct (f x); auto.
Qed.

Lemma find_app_None {A} (f : A -> bool) (l l' : list A) :
  List.find f l = None -> List.find f (l ++ l') = List.find f l'.
Proof.
  induction l as [|x l IH]; simpl; [reflexivity|].
  destruct (f x); [discriminate|auto].
Qed.

(** An upload of a known type, under an id that no entry has yet, can be
    read back by that id: the entry carries the type, name and version of
    the upload and the accuracy 0.95, and the payload is in the directory
    of the type. *)
Theorem upload_then_get_model (amb : ambient)
    (model_path t n v ext payload : string) (st : state) :
  In t known_types ->
  (forall m, In m (models_json st) -> id m <> uuid4 amb 0) ->
  let out := upload_model amb model_path t n v ext payload st in
  fst out = Return (uuid4 amb 0)
  /\ get_model (uuid4 amb 0) (snd out)
     = Some (mkAIModelInfo (uuid4 amb 0) n v t (95 # 100) (now amb) (now amb) (now amb))
  /\ models_json (snd out)
     = models_json st
       ++ [mkAIModelInfo (uuid4 amb 0) n v t (95 # 100) (now amb) (now amb) (now amb)]
  /\ exists dir, model_dir model_path t = Some dir
       /\ model_files (snd out)
          = model_files st ++ [(dir +:+ "/" +:+ uuid4 amb 0 +:+ ext, payload)].
Proof.
  intros Ht Hfresh out. subst out. unfold upload_model.
  apply (model_dir_known model_path) in Ht. destruct Ht as [dir Hdir].
  rewrite Hdir. cbn [fst snd models_json model_files].
  split; [reflexivity|]. split; [|split; [reflexivity|eauto]].
  unfold get_model. cbn [models_json].
  rewrite find_app_None.
  - simpl. now rewrite String.eqb_refl.
  - destruct (List.find _ (models_json st)) as [m|] eqn:Hfind; [|reflexivity].
    apply find_some in Hfind. destruct Hfind as [Hin Heq].
    apply String.eqb_eq in Heq. now destruct (Hfresh m Hin).
Qed.

Lemma upload_then_get_model_witness :
  let amb := Stub.ambient "up" 7 in
  let st := snd (list_models (Stub.ambient "id" 0) init) in
  In "FACE" known_types
  /\ (forall m, In m (models_json st) -> id m <> uuid4 amb 0)
  /\ get_model (uuid4 amb 0)
       (snd (upload_model amb "./models" "FACE" "faces" "2.1.0" ".bin" "blob" st))
     = Some (mkAIModelInfo (uuid4 amb 0) "faces" "2.1.0" "FACE" (95 # 100) 7%Z 7%Z 7%Z).
Proof.
  intros amb st.
  assert (Ht : In "FACE" known_types) by (simpl; auto).
  assert (Hfresh : forall m, In m (models_json st) -> id m <> uuid4 amb 0).
  { intros m [<-|[<-|[<-|[<-|[]]]]]; discriminate. }
  split; [exact Ht|]. split; [exact Hfresh|].
  exact (proj1 (proj2 (upload_then_get_model amb "./models" "FACE" "faces" "2.1.0"
                         ".bin" "blob" st Ht Hfresh))).
Defined.

(** An upload of a type outside the four known ones raises [ValueError]
    (a 500 for the client, not a 4xx) and leaves the catalog and the model
    files as they were. *)
Theorem upload_unknown_type_rejected (amb : ambient)
    (model_path t n v ext payload : string) (st : state) :
  ~ In t known_types ->
  upload_model amb model_path t n v ext payload st
  = (Raise (Exception "ValueError"), st)
  /\ Router.upload_model amb model_path t n v ext payload st
     = (ServerError ("Error uploading model: Invalid model type: " +:+ t), st).
Proof.
  intros Ht. unfold Router.upload_model, upload_model.
  destruct (model_dir model_path t) as [dir|] eqn:Hdir; [|split; reflexivity].
  exfalso. apply Ht. apply (model_dir_known model_path). eauto.
Qed.

Lemma upload_unknown_type_rejected_witness :
  ~ In "risk" known_types
  /\ upload_model (Stub.ambient "up" 7) "./models" "risk" "m" "1.0.0" ".bin" "blob" init
     = (Raise (Exception "ValueError"), init).
Proof.
  assert (Ht : ~ In "risk" known_types).
  { intros [H|[H|[H|[H|[]]]]]; discriminate. }
  split; [exact Ht|].
  exact (proj1 (upload_unknown_type_rejected (Stub.ambient "up" 7) "./models" "risk"
                  "m" "1.0.0" ".bin" "blob" init Ht)).
Defined.

Lemma step_keeps_get_model (amb : ambient) (r : request) (st : state)
    (i : string) (m : AIModelInfo) :
  get_model i st = Some m -> get_model i (step amb r st) = Some m.
Proof.
  intros H. destruct r; simpl; auto.
  - unfold list_models. unfold get_model in H.
    destruct (models_json st) eqn:E; [discriminate|].
    simpl. unfold get_model. now rewrite E.
  - unfold upload_model. destruct (model_dir _ _); simpl; auto.
    unfold get_model in *. simpl. now apply find_app_Some.
Qed.

(** What [get_model] finds under an id it keeps finding, unchanged, after
    any sequence of requests: no request deletes or rewrites an entry. *)
Theorem get_model_stable (rs : list (ambient * request)) (st : state)
    (i : string) (m : AIModelInfo) :
  get_model i st = Some m -> get_model i (run rs st) = Some m.
Proof.
  revert st. induction rs as [|[amb r] rs IH]; intros st H; simpl; auto.
  apply IH. now apply step_keeps_get_model.
Qed.

Lemma get_model_stable_witness :
  let st := Stub.catalog [Stub.model_entry "a" "1.2.0" "RISK"] in
  let rs := [ (Stub.ambient "x" 1, ListModels);
              (Stub.ambient "a" 2, UploadModel "./models" "RISK" "m" "3.0.0" ".bin" "blob");
              (Stub.ambient "y" 3, GetModelByType "RISK") ] in
  get_model "a" st = Some (Stub.model_entry "a" "1.2.0" "RISK")
  /\ get_model "a" (run rs st) = Some (Stub.model_entry "a" "1.2.0" "RISK").
Proof.
  intros st rs. split; [reflexivity|].
  apply (get_model_stable rs st). reflexivity.
Defined.

(** The entry [get_model_by_type] returns is the first, in the order of the
    catalog, among the entries of the type whose version string is
    greatest: every earlier entry of the type has a strictly smaller
    version string, every later one a smaller or equal one. *)
Lemma sorted_head_first_max (l : list AIModelInfo) (h : AIModelInfo)
    (t : list AIModelInfo) :
  sorted_by_version_desc l = h :: t ->
  exists l1 l2, l = l1 ++ h :: l2
    /\ (forall y, In y l1 -> PyStr.lt (version y) (version h) = true)
    /\ (forall y, In y l2 -> PyStr.le (version y) (version h)).
Proof.
  revert h t. induction l as [|x l IH]; intros h t; [discriminate|].
  unfold sorted_by_version_desc in *. cbn [fold_right].
  pose proof (sorted_head_max l) as Hmax. unfold sorted_by_version_desc in Hmax.
  destruct (fold_right insert_desc [] l) as [|h' t'] eqn:E.
  - subst l. simpl. intros [= <- <-]. exists [], []. repeat split; intros y [].
  - cbn [insert_desc].
    destruct (PyStr.lt (version x) (version h')) eqn:Hlt.
    + intros [= <- <-].
      destruct (IH h' t' eq_refl) as (l1 & l2 & -> & H1 & H2).
      exists (x :: l1), l2. repeat split; auto.
      intros y [<-|Hy]; auto.
    + intros [= <- <-]. exists [], l. repeat split; [intros y []|].
      intros y Hy. destruct Hmax as [_ Hmax].
      eapply str_le_trans; [apply Hmax, Hy|exact Hlt].
Qed.

Theorem get_model_by_type_first_greatest (t : string) (st : state)
    (m : AIModelInfo) :
  get_model_by_type t st = Some m ->
  exists l1 l2, models_of_type t (models_json st) = l1 ++ m :: l2
    /\ (forall y, In y l1 -> PyStr.lt (version y) (version m) = true)
    /\ (forall y, In y l2 -> PyStr.lt (version m) (version y) = false).
Proof.
  unfold get_model_by_type.
  destruct (sorted_by_version_desc _) as [|h tl] eqn:E; [discriminate|].
  intros [= <-]. exact (sorted_head_first_max _ _ _ E).
Qed.

Lemma get_model_by_type_first_greatest_witness :
  let a := Stub.model_entry "a" "1.9.0" "RISK" in
  let b := Stub.model_entry "b" "2.0.0" "RISK" in
  let c := Stub.model_entry "c" "2.0.0" "RISK" in
  let st := Stub.catalog [a; Stub.model_entry "f" "9.0.0" "FACE"; b; c] in
  get_model_by_type "RISK" st = Some b
  /\ exists l1 l2, models_of_type "RISK" (models_json st) = l1 ++ b :: l2
       /\ (forall y, In y l1 -> PyStr.lt (version y) (version b) = true)
       /\ (forall y, In y l2 -> PyStr.lt (version b) (version y) = false).
Proof.
  intros a b c st. split; [reflexivity|].
  apply (get_model_by_type_first_greatest "RISK" st b). reflexivity.
Defined.

(** Both lookups answer 404 exactly when the catalog has nothing to
    return: no entry with the id, no entry of the type. *)
Theorem lookups_not_found_iff (st : state) :
  (forall i, (exists d, Router.get_model i st = NotFound d)
             <-> forall m, In m (models_json st) -> id m <> i)
  /\ (forall t, (exists d, route_get_model_by_type t st = NotFound d)
                <-> forall m, In m (models_json st) -> type m <> t).
Proof.
  split.
  - intros i. unfold Router.get_model, get_model.
    destruct (List.find _ (models_json st)) as [m|] eqn:Hfind.
    + split; [intros [d Hd]; discriminate|]. intros Hno. exfalso.
      apply find_some in Hfind. destruct Hfind as [Hin Heq].
      apply String.eqb_eq in Heq. exact (Hno m Hin Heq).
    + split; [|eauto]. intros _ m Hin Heq.
      pose proof (find_none _ _ Hfind m Hin) as Hf. simpl in Hf.
      apply String.eqb_neq in Hf. contradiction.
  - intros t. unfold route_get_model_by_type.
    rewrite <- get_model_by_type_None.
    destruct (get_model_by_type t st); split; eauto; try discriminate.
    intros [d Hd]. discriminate.
Qed.

(** [list_models] seeds at most once: on a catalog that is not empty it
    returns the catalog and writes nothing, and after any [list_models] a
    second one returns the same list and leaves the state as the first
    left it. *)
Theorem list_models_idempotent (amb1 amb2 : ambient) (st : state) :
  (models_json st <> [] -> list_models amb1 st = (models_json st, st))
  /\ models_json (snd (list_models amb1 st)) <> []
  /\ list_models amb2 (snd (list_models amb1 st))
     = (fst (list_models amb1 st), snd (list_models amb1 st)).
Proof.
  unfold list_models. destruct (models_json st) as [|m l] eqn:E.
  - split; [congruence|]. split; [discriminate|reflexivity].
  - cbn [fst snd]. rewrite E. repeat split; discriminate.
Qed.

(** An upload whose version string is greater than that of every entry of
    its type becomes what [get_model_by_type] returns for the type. *)
Theorem upload_newer_becomes_latest (amb : ambient)
    (model_path t n v ext payload : string) (st : state) :
  In t known_types ->
  (forall m, In m (models_json st) -> type m = t -> PyStr.lt (version m) v = true) ->
  get_model_by_type t (snd (upload_model amb model_path t n v ext payload st))
  = Some (mkAIModelInfo (uuid4 amb 0) n v t (95 # 100) (now amb) (now amb) (now amb)).
Proof.
  intros Ht Hnew. unfold upload_model.
  apply (model_dir_known model_path) in Ht. destruct Ht as [dir ->].
  cbn [snd].
  set (new := mkAIModelInfo _ _ _ _ _ _ _ _).
  set (st' := mkState _ _).
  assert (Hin : In new (models_json st')) by (apply in_or_app; right; now left).
  destruct (get_model_by_type_succeeds t st') as (m & Hget & Hm).
  { exists new. split; [exact Hin|reflexivity]. }
  rewrite Hget. f_equal.
  apply get_model_by_type_Some in Hget. destruct Hget as (Hm_in & _ & Hmax).
  apply in_app_or in Hm_in. destruct Hm_in as [Hold|[<-|[]]]; [|reflexivity].
  exfalso. specialize (Hmax new Hin eq_refl).
  change (PyStr.lt (version m) v = false) in Hmax.
  rewrite (Hnew m Hold Hm) in Hmax. discriminate.
Qed.

Lemma upload_newer_becomes_latest_witness :
  let st := Stub.catalog [ Stub.model_entry "a" "1.2.0" "RISK";
                           Stub.model_entry "b" "1.10.0" "RISK" ] in
  let amb := Stub.ambient "up" 7 in
  In "RISK" known_types
  /\ (forall m, In m (models_json st) -> type m = "RISK" ->
        PyStr.lt (version m) "2.0.0" = true)
  /\ get_model_by_type "RISK"
       (snd (upload_model amb "./models" "RISK" "risk" "2.0.0" ".bin" "blob" st))
     = Some (mkAIModelInfo (uuid4 amb 0) "risk" "2.0.0" "RISK" (95 # 100) 7%Z 7%Z 7%Z).
Proof.
  intros st amb.
  assert (Ht : In "RISK" known_types) by (simpl; auto).
  assert (Hnew : forall m, In m (models_json st) -> type m = "RISK" ->
                   PyStr.lt (version m) "2.0.0" = true).
  { intros m [<-|[<-|[]]] _; reflexivity. }
  split; [exact Ht|]. split; [exact Hnew|].
  exact (upload_newer_becomes_latest amb "./models" "RISK" "risk" "2.0.0" ".bin"
           "blob" st Ht Hnew).
Defined.

End RegistryMore.

(** * Further properties of the feature engineering *)

Section FeatureEngineeringMore.
Import Py FeatureEngineering.

Lemma lower_ascii_at (c : ascii) :
  Ascii.eqb "@" (PyStr.lower_ascii c) = Ascii.eqb "@" c.
Proof. destruct c as [[] [] [] [] [] [] [] []]; reflexivity. Qed.

Lemma lower_ascii_idempotent (c : ascii) :
  PyStr.lower_ascii (PyStr.lower_ascii c) = PyStr.lower_ascii c.
Proof. destruct c as [[] [] [] [] [] [] [] []]; reflexivity. Qed.

Lemma ascii_lower_contains_at (s : string) :
  PyStr.contains_char "@" (PyStr.ascii_lower s) = PyStr.contains_char "@" s.
Proof.
  induction s as [|c s IH]; [reflexivity|].
  cbn [PyStr.ascii_lower PyStr.contains_char]. now rewrite lower_ascii_at, IH.
Qed.

Lemma ascii_lower_idempotent (s : string) :
  PyStr.ascii_lower (PyStr.ascii_lower s) = PyStr.ascii_lower s.
Proof.
  induction s as [|c s IH]; [reflexivity|].
  cbn [PyStr.ascii_lower]. now rewrite lower_ascii_idempotent, IH.
Qed.

(** No piece of a split contains the separator. *)
Lemma split_char_pieces (c : ascii) (s p : string) :
  In p (PyStr.split_char c s) -> PyStr.contains_char c p = false.
Proof.
  revert p. induction s as [|d s IH]; simpl; intros p.
  - intros [<-|[]]. reflexivity.
  - destruct (Ascii.eqb c d) eqn:E.
    + intros [<-|H]; [reflexivity|auto].
    + destruct (PyStr.split_char c s) as [|q qs].
      * intros [<-|[]]. simpl. now rewrite E.
      * intros [<-|H].
        -- simpl. rewrite E. apply IH. now left.
        -- apply IH. now right.
Qed.

(** Whatever it is given, [extract_email_domain] returns a string without
    ['@'] that lowercasing leaves as it is, as long as [str.lower] brings
    no ['@'] into a string that has none, changes nothing when applied a
    second time, and leaves ["unknown"] as it is. *)
Theorem extract_email_domain_normal (str_lower : string -> string)
    (email : value) :
  (forall s, PyStr.contains_char "@" s = false ->
             PyStr.contains_char "@" (str_lower s) = false) ->
  (forall s, str_lower (str_lower s) = str_lower s) ->
  str_lower "unknown" = "unknown" ->
  PyStr.contains_char "@" (extract_email_domain str_lower email) = false
  /\ str_lower (extract_email_domain str_lower email)
     = extract_email_domain str_lower email.
Proof.
  intros Hat Hidem Hunknown.
  destruct email as [| | |s| |]; try (split; [reflexivity|exact Hunknown]).
  unfold extract_email_domain.
  destruct (negb (truthy (VStr s)) || negb (PyStr.contains_char "@" s));
    [split; [reflexivity|exact Hunknown]|].
  destruct (nth_error (PyStr.split_char "@" s) 1) as [d|] eqn:Hd;
    [|split; [reflexivity|exact Hunknown]].
  apply nth_error_In in Hd. apply split_char_pieces in Hd.
  split; [now apply Hat|apply Hidem].
Qed.

Lemma extract_email_domain_normal_witness :
  let email := VStr "User@Mail.Example.COM" in
  (forall s, PyStr.contains_char "@" s = false ->
             PyStr.contains_char "@" (PyStr.ascii_lower s) = false)
  /\ (forall s, PyStr.ascii_lower (PyStr.ascii_lower s) = PyStr.ascii_lower s)
  /\ PyStr.ascii_lower "unknown" = "unknown"
  /\ extract_email_domain PyStr.ascii_lower email = "mail.example.com"
  /\ PyStr.contains_char "@" (extract_email_domain PyStr.ascii_lower email) = false
  /\ PyStr.ascii_lower (extract_email_domain PyStr.ascii_lower email)
     = extract_email_domain PyStr.ascii_lower email.
Proof.
  intros email.
  assert (Hat : forall s, PyStr.contains_char "@" s = false ->
                  PyStr.contains_char "@" (PyStr.ascii_lower s) = false)
    by (intros s Hs; now rewrite ascii_lower_contains_at).
  assert (Hunknown : PyStr.ascii_lower "unknown" = "unknown") by reflexivity.
  split; [exact Hat|]. split; [exact ascii_lower_idempotent|].
  split; [exact Hunknown|]. split; [reflexivity|].
  exact (extract_email_domain_normal PyStr.ascii_lower email Hat
           ascii_lower_idempotent Hunknown).
Defined.

(** [combine_location] reads the four fields only, treats an empty field
    as a missing one, and joins the others in the order address, city,
    country, postal code. *)
Theorem combine_location_fields (a : gmap string string) :
  (forall k v, ~ In k location_fields ->
     combine_location (<[k := v]> a) = combine_location a)
  /\ (forall k, combine_location (<[k := ""]> a) = combine_location (delete k a))
  /\ combine_location ∅ = ""
  /\ (forall ad ci co pc,
        a !! "address" = Some ad -> a !! "city" = Some ci ->
        a !! "country" = Some co -> a !! "postal_code" = Some pc ->
        ad <> "" -> ci <> "" -> co <> "" -> pc <> "" ->
        combine_location a = ad +:+ ", " +:+ ci +:+ ", " +:+ co +:+ ", " +:+ pc).
Proof.
  unfold combine_location, location_fields. split; [|split; [|split]].
  - intros k v Hk. simpl in Hk. cbn [omap list_omap].
    rewrite !lookup_insert_ne by (intros ->; tauto). reflexivity.
  - intros k.
    assert (H : forall f,
      match <[k := ""]> a !! f with
      | Some v => if String.eqb v "" then None else Some v
      | None => None
      end
      = match delete k a !! f with
        | Some v => if String.eqb v "" then None else Some v
        | None => None
        end).
    { intros f. destruct (decide (k = f)) as [->|Hne].
      - now rewrite lookup_insert_eq, lookup_delete_eq.
      - now rewrite lookup_insert_ne, lookup_delete_ne. }
    cbn [omap list_omap]. now rewrite !H.
  - reflexivity.
  - intros ad ci co pc H1 H2 H3 H4 Had Hci Hco Hpc. cbn [omap list_omap].
    rewrite H1, H2, H3, H4.
    apply String.eqb_neq in Had, Hci, Hco, Hpc. rewrite Had, Hci, Hco, Hpc.
    reflexivity.
Qed.

Local Open Scope Q_scope.

(** The engineered risk score is 0 when the trust score is missing, null
    or the number 0, and 100 less the trust score for any other number: a
    trust score of 0 gives the risk 0, not 100. *)
Theorem engineered_risk_score (to_datetime_at : string -> value -> option Z)
    (str_lower : string -> string) (now_iso : string)
    (data : gmap string value) (f : features) :
  engineer_features to_datetime_at str_lower now_iso data = Return f ->
  (data !! "risk_score"%string = None -> risk_score f = 0)
  /\ (data !! "risk_score"%string = Some VNone -> risk_score f = 0)
  /\ (forall q, data !! "risk_score"%string = Some (VNum q) ->
        (q == 0 -> risk_score f = 0)
        /\ (~ q == 0 -> risk_score f = 100 - q)).
Proof.
  unfold engineer_features. intros H.
  apply bind_Return in H. destruct H as (loc & _ & H).
  apply bind_Return in H. destruct H as (rs & Hrs & H).
  injection H as <-. cbn [risk_score].
  unfold get_default in Hrs. split; [|split].
  - intros Hnone. rewrite Hnone in Hrs. simpl in Hrs. now injection Hrs as <-.
  - intros Hnone. rewrite Hnone in Hrs. simpl in Hrs. now injection Hrs as <-.
  - intros q Hq. rewrite Hq in Hrs.
    unfold inverted_risk_score in Hrs. cbn [default from_option id truthy] in Hrs.
    destruct (Qeq_bool q 0) eqn:E; simpl in Hrs; injection Hrs as <-.
    + apply Qeq_bool_iff in E. split; [reflexivity|tauto].
    + apply Qeq_bool_neq in E. split; [tauto|reflexivity].
Qed.

Lemma engineered_risk_score_witness :
  let data : gmap string value := {[ "risk_score"%string := VNum 30 ]} in
  let f := mkFeatures None "unknown" "" (100 - 30) (VStr "unknown") VNone VNone VNone in
  engineer_features iso_to_datetime_at PyStr.ascii_lower "2024-05-01T10:00:00" data
  = Return f
  /\ data !! "risk_score"%string = Some (VNum 30)
  /\ ~ 30 == 0
  /\ risk_score f = 100 - 30
  /\ risk_score f == 70.
Proof.
  intros data f.
  assert (H : engineer_features iso_to_datetime_at PyStr.ascii_lower
                "2024-05-01T10:00:00" data = Return f)
    by (vm_compute; reflexivity).
  assert (Hq : data !! "risk_score"%string = Some (VNum 30)) by reflexivity.
  assert (Hne : ~ 30 == 0) by discriminate.
  split; [exact H|]. split; [exact Hq|]. split; [exact Hne|]. split.
  - exact (proj2 (proj2 (proj2 (engineered_risk_score iso_to_datetime_at
                                  PyStr.ascii_lower _ data f H)) 30 Hq) Hne).
  - reflexivity.
Defined.

(** [engineer_features] fails when the record has an [address] that is not
    a dictionary ([AttributeError]) and, the address being absent or a
    dictionary, when its [risk_score] is a non-empty string, list or
    dictionary ([TypeError]); it returns a feature set when the address is
    absent or a dictionary and the [risk_score] is absent, null, a boolean,
    a number, or an empty string, list or dictionary. *)
Theorem engineer_features_failures (to_datetime_at : string -> value -> option Z)
    (str_lower : string -> string) (now_iso : string) (data : gmap string value) :
  let run := engineer_features to_datetime_at str_lower now_iso data in
  match data !! "address"%string with
  | None | Some (VDict _) =>
      match data !! "risk_score"%string with
      | Some (VStr s) =>
          if String.eqb s "" then exists f, run = Return f
          else run = Raise (Exception "TypeError")
      | Some (VList l) =>
          match l with
          | [] => exists f, run = Return f
          | _ :: _ => run = Raise (Exception "TypeError")
          end
      | Some (VDict d) =>
          if bool_decide (d = ∅) then exists f, run = Return f
          else run = Raise (Exception "TypeError")
      | None | Some VNone | Some (VBool _) | Some (VNum _) =>
          exists f, run = Return f
      end
  | Some (VNone | VBool _ | VNum _ | VStr _ | VList _) =>
      run = Raise (Exception "AttributeError")
  end.
Proof.
  cbv zeta. unfold engineer_features, get_default, inverted_risk_score.
  destruct (data !! "address"%string) as [[| | | | |d]|];
    cbn [default from_option id Py.bind]; try reflexivity;
    (destruct (data !! "risk_score"%string) as [[|b|q|s|l|d']|];
     cbn [default from_option id truthy Py.bind];
     try (destruct b); try (destruct (Qeq_bool q 0));
     try (destruct (String.eqb s "")); try (destruct l);
     try (destruct (bool_decide (d' = ∅)));
     cbn [negb Py.bind]; try reflexivity; try (eexists; reflexivity)).
Qed.

(** A record whose [risk_score] is a list, and one whose [address] is a
    string. *)
Example engineer_features_failures_examples :
  engineer_features iso_to_datetime_at PyStr.ascii_lower "2024-05-01T10:00:00"
    {[ "risk_score"%string := VList [VNum 1] ]}
  = Raise (Exception "TypeError")
  /\ engineer_features iso_to_datetime_at PyStr.ascii_lower "2024-05-01T10:00:00"
       {[ "address"%string := VStr "1 Main Street" ]}
     = Raise (Exception "AttributeError").
Proof. split; vm_compute; reflexivity. Qed.

(** [calculate_age] gives an age only when both dates are present and
    parse; the age is then the whole days between them over 365.25, which
    is negative when the record was created before the date of birth:
    such a record is not refused. *)
Theorem calculate_age_Some (to_datetime : value -> option Z)
    (dob created_at : value) (a : Q) :
  calculate_age to_datetime dob created_at = Some a ->
  truthy dob = true /\ truthy created_at = true
  /\ exists d c, to_datetime dob = Some d /\ to_datetime created_at = Some c
       /\ a = inject_Z ((c - d) / ns_per_day) / (36525 # 100)
       /\ ((d <= c)%Z -> 0 <= a)
       /\ ((c < d)%Z -> a < 0).
Proof.
  unfold calculate_age.
  destruct (truthy dob); [|discriminate].
  destruct (truthy created_at); [|discriminate]. cbn [negb orb].
  destruct (to_datetime dob) as [d|]; [|discriminate].
  destruct (to_datetime created_at) as [c|]; [|discriminate].
  intros [= <-]. split; [reflexivity|]. split; [reflexivity|].
  exists d, c. repeat split.
  - intros Hle.
    assert (H : (0 <= (c - d) / ns_per_day)%Z)
      by (apply Z.div_pos; [lia|reflexivity]).
    apply Qle_shift_div_l; [reflexivity|]. rewrite Qmult_0_l.
    change 0 with (inject_Z 0). now rewrite <- Zle_Qle.
  - intros Hlt.
    assert (H : ((c - d) / ns_per_day < 0)%Z)
      by (apply Z.div_lt_upper_bound; [reflexivity|lia]).
    apply Qlt_shift_div_r; [reflexivity|]. rewrite Qmult_0_l.
    change 0 with (inject_Z 0). now rewrite <- Zlt_Qlt.
Qed.

Lemma calculate_age_Some_witness :
  let a := inject_Z (-366) / (36525 # 100) in
  calculate_age iso_to_datetime (VStr "2021-01-01") (VStr "2020-01-01") = Some a
  /\ a < 0.
Proof.
  intros a.
  assert (H : calculate_age iso_to_datetime (VStr "2021-01-01") (VStr "2020-01-01")
              = Some a) by reflexivity.
  split; [exact H|].
  destruct (calculate_age_Some iso_to_datetime _ _ a H)
    as (_ & _ & d & c & Hd & Hc & _ & _ & Hneg).
  apply Hneg. injection Hd as <-. injection Hc as <-. reflexivity.
Defined.

End FeatureEngineeringMore.

(** * Further properties of the KYC scorer *)

Section KycMore.
Import Py Sklearn Kyc.
Local Open Scope Q_scope.

Lemma col_get_set_ne (c k : string) (v : value) (df : frame) :
  c <> k -> col_get c (col_set k v df) = col_get c df.
Proof.
  intros Hne. induction df as [|[c' w] df IH]; simpl.
  - destruct (String.eqb_spec k c); [congruence|reflexivity].
  - destruct (String.eqb_spec c' k) as [->|Hk]; simpl.
    + destruct (String.eqb_spec k c); [congruence|reflexivity].
    + destruct (String.eqb c' c); [reflexivity|exact IH].
Qed.

Lemma col_get_drop_ne (c k : string) (df : frame) :
  c <> k -> col_get c (col_drop k df) = col_get c df.
Proof.
  intros Hne. induction df as [|[c' w] df IH]; simpl; [reflexivity|].
  destruct (String.eqb_spec c' k) as [->|Hk]; simpl.
  - destruct (String.eqb_spec k c); [congruence|exact IH].
  - destruct (String.eqb c' c); [reflexivity|exact IH].
Qed.

Lemma col_get_app_None (c : string) (df df' : frame) :
  col_get c df' = None -> col_get c (df ++ df') = col_get c df.
Proof.
  intros H. induction df as [|[c' w] df IH]; simpl; [exact H|].
  destruct (String.eqb c' c); [reflexivity|exact IH].
Qed.

Lemma prefix_append (p s : string) : String.prefix p (p +:+ s) = true.
Proof.
  induction p as [|a p IH]; simpl; [now destruct s|].
  destruct (ascii_dec a a); [exact IH|congruence].
Qed.

(** The columns [preprocess_features] selects: all present, in order. *)
Lemma select_columns (df : frame) (columns : list string) :
  List.filter (fun c => negb (bool_decide (is_Some (col_get c df)))) columns = [] ->
  map fst (omap (fun c => option_map (pair c) (col_get c df)) columns) = columns.
Proof.
  induction columns as [|c cs IH]; [reflexivity|].
  cbn [List.filter omap list_omap].
  destruct (col_get c df) as [v|] eqn:E.
  - rewrite bool_decide_eq_true_2 by eauto. cbn [negb option_map map fst].
    intros H. now rewrite (IH H).
  - rewrite bool_decide_eq_false_2 by (intros [? ?]; discriminate).
    discriminate.
Qed.

(** A record that [preprocess_features] accepts comes out with the
    fourteen columns of the model first, in their fixed order, whatever
    the order of its keys, followed only by columns named [doc_type_...]. *)
Theorem preprocess_features_schema (L : library) (features X : frame) :
  preprocess_features L features = Return X ->
  exists doc_type_columns,
    map fst X = feature_columns ++ doc_type_columns
    /\ Forall (fun c => String.prefix "doc_type_" c = true) doc_type_columns
    /\ (14 <= length X)%nat.
Proof.
  unfold preprocess_features. intros H.
  apply bind_Return in H. destruct H as (df1 & _ & H).
  apply bind_Return in H. destruct H as (df2 & _ & H).
  apply bind_Return in H. destruct H as (df3 & _ & H).
  destruct (List.filter _ (feature_columns ++ _)) eqn:Hmissing; [|discriminate].
  injection H as <-.
  exists (List.filter (String.prefix "doc_type_") (map fst df3)).
  pose proof (select_columns _ _ Hmissing) as Hsel.
  split; [exact Hsel|]. split.
  - apply List.Forall_forall. intros c Hc. apply filter_In in Hc. tauto.
  - pose proof (f_equal (@length string) Hsel) as Hlen.
    rewrite length_map, length_app in Hlen.
    eapply Nat.le_trans; [|apply Nat.eq_le_incl; symmetry; exact Hlen].
    simpl. lia.
Qed.

Lemma preprocess_features_schema_witness :
  let X := [ ("transaction_amount", VNum 250); ("log_amount", VNum 250);
             ("hour_of_day", VNum 14); ("day_of_week", VNum 1);
             ("transaction_frequency", VNum 3); ("user_age", VNum 40);
             ("account_age", VNum 2); ("previous_fraud_reports", VNum 0);
             ("document_quality", VNum (9 # 10)); ("document_age", VNum 1);
             ("country_risk_score", VNum (1 # 10)); ("ip_risk_score", VNum (1 # 10));
             ("login_attempts", VNum 1); ("failed_logins", VNum 0);
             ("doc_type_passport", VBool true) ]%string in
  preprocess_features Stub.library (Stub.kyc_record 250 (9 # 10) (1 # 10) 0) = Return X
  /\ exists doc_type_columns,
       map fst X = feature_columns ++ doc_type_columns
       /\ Forall (fun c => String.prefix "doc_type_" c = true) doc_type_columns
       /\ (14 <= length X)%nat.
Proof.
  intros X.
  assert (H : preprocess_features Stub.library (Stub.kyc_record 250 (9 # 10) (1 # 10) 0)
              = Return X) by (vm_compute; reflexivity).
  split; [exact H|].
  exact (preprocess_features_schema Stub.library _ X H).
Defined.

(** A record that lacks one of the eleven columns the script does not
    derive itself is never scored: [preprocess_features] does not return. *)
Theorem preprocess_features_missing_column (L : library) (features : frame)
    (c : string) :
  In c feature_columns ->
  ~ In c ["log_amount"; "hour_of_day"; "day_of_week"]%string ->
  col_get c features = None ->
  exists e, preprocess_features L features = Raise e.
Proof.
  intros Hc Hderived Hnone.
  assert (Hdoc : c <> "document_type"%string /\ String.prefix "doc_type_" c = false).
  { simpl in Hc. repeat (destruct Hc as [<-|Hc]; [split; [discriminate|reflexivity]|]).
    destruct Hc. }
  destruct Hdoc as [Hdt Hpre].
  assert (Hh : c <> "hour_of_day"%string) by (intros ->; simpl in Hderived; tauto).
  assert (Hd : c <> "day_of_week"%string) by (intros ->; simpl in Hderived; tauto).
  assert (Hl : c <> "log_amount"%string) by (intros ->; simpl in Hderived; tauto).
  unfold preprocess_features.
  match goal with
  | |- exists e, Py.bind ?m _ = _ => destruct m as [df1|e1] eqn:H1
  end; cbn [Py.bind]; [|eauto].
  assert (Hc1 : col_get c df1 = None).
  { destruct (col_get "transaction_time" features) as [tv|];
      [destruct (to_datetime L tv)|]; try discriminate; injection H1 as <-;
      [now rewrite !col_get_set_ne|exact Hnone]. }
  match goal with
  | |- exists e, Py.bind ?m _ = _ => destruct m as [df2|e2] eqn:H2
  end; cbn [Py.bind]; [|eauto].
  assert (Hc2 : col_get c df2 = None).
  { destruct (col_get "transaction_amount" df1) as [av|];
      [destruct (as_number av) as [a|]; cbn [Py.bind] in H2|];
      try discriminate; injection H2 as <-;
      [now rewrite col_get_set_ne|exact Hc1]. }
  match goal with
  | |- exists e, Py.bind ?m _ = _ => destruct m as [df3|e3] eqn:H3
  end; cbn [Py.bind]; [|eauto].
  assert (Hc3 : col_get c df3 = None).
  { destruct (col_get "document_type" df2) as [dv|];
      [|injection H3 as <-; exact Hc2].
    destruct (dummy_column L dv) as [[c0|]|e] eqn:Hdummy; cbn [Py.bind] in H3;
      try discriminate; injection H3 as <-.
    - rewrite col_get_app_None; [now rewrite col_get_drop_ne|].
      simpl. destruct (String.eqb_spec c0 c) as [->|]; [|reflexivity].
      exfalso. destruct dv; simpl in Hdummy; try discriminate;
        injection Hdummy as <-; rewrite prefix_append in Hpre; discriminate.
    - rewrite app_nil_r. now rewrite col_get_drop_ne. }
  destruct (List.filter _ (feature_columns ++ _)) eqn:Hf; [|eauto].
  exfalso.
  assert (Hin : In c (List.filter
            (fun c => negb (bool_decide (is_Some (col_get c df3))))
            (feature_columns
             ++ List.filter (String.prefix "doc_type_") (map fst df3)))).
  { apply filter_In. split; [apply in_or_app; now left|].
    rewrite Hc3. rewrite bool_decide_eq_false_2; [reflexivity|].
    intros [? ?]; discriminate. }
  rewrite Hf in Hin. destruct Hin.
Qed.

Lemma preprocess_features_missing_column_witness :
  let features := [ ("transaction_amount", VNum 250); ("document_quality", VNum 1) ]%string in
  In "user_age"%string feature_columns
  /\ ~ In "user_age"%string ["log_amount"; "hour_of_day"; "day_of_week"]%string
  /\ col_get "user_age" features = None
  /\ exists e, preprocess_features Stub.library features = Raise e.
Proof.
  intros features.
  assert (H1 : In "user_age"%string feature_columns) by (simpl; auto 10).
  assert (H2 : ~ In "user_age"%string ["log_amount"; "hour_of_day"; "day_of_week"]%string).
  { intros [H|[H|[H|[]]]]; discriminate. }
  assert (H3 : col_get "user_age" features = None) by reflexivity.
  split; [exact H1|]. split; [exact H2|]. split; [exact H3|].
  exact (preprocess_features_missing_column Stub.library features "user_age" H1 H2 H3).
Defined.

(** The risk factors of a result are the tests that fired, in the fixed
    order amount, document quality, country, failed logins, or the single
    sentence for none; the explanation is their join, so that splitting it
    gives them back. *)
Theorem risk_factors_are_fired_tests (proba : list Q) (c : Z) (X : frame)
    (r : result) :
  scoring_result proba c X = Return r ->
  exists amount quality country failed,
    (do v <- cell "transaction_amount" X; as_number v) = Return amount
    /\ (do v <- cell "document_quality" X; as_number v) = Return quality
    /\ (do v <- cell "country_risk_score" X; as_number v) = Return country
    /\ (do v <- cell "failed_logins" X; as_number v) = Return failed
    /\ risk_factors r
       = match flag (Qltb 3 failed) "Multiple failed login attempts"
                 (flag (Qltb (7 # 10) country) "High-risk country"
                    (flag (Qltb quality (7 # 10)) "Low document quality"
                       (flag (Qltb 10000 amount) "High transaction amount" [])))
         with
         | [] => ["No significant risk factors identified"%string]
         | fired => fired
         end
    /\ explanation r = PyStr.join " | " (risk_factors r).
Proof.
  intros H. apply scoring_result_Return in H.
  destruct H as (p1 & _ & _ & _ & _ & He & Hf & _).
  unfold generate_explanation in He.
  apply bind_Return in He. destruct He as (amount & Ha & He).
  apply bind_Return in He. destruct He as (quality & Hq & He).
  apply bind_Return in He. destruct He as (country & Hc & He).
  apply bind_Return in He. destruct He as (failed & Hfl & He).
  exists amount, quality, country, failed.
  split; [exact Ha|]. split; [exact Hq|]. split; [exact Hc|]. split; [exact Hfl|].
  rewrite Hf. injection He as <-.
  destruct (Qltb 10000 amount), (Qltb quality (7 # 10)),
    (Qltb (7 # 10) country), (Qltb 3 failed); split; reflexivity.
Qed.

Lemma risk_factors_are_fired_tests_witness :
  let X := Stub.kyc_row 20000 in
  let r := mkResult "high" ((9 # 10) * 100) (9 # 10)
             "High transaction amount | High-risk country | Multiple failed login attempts"
             ["High transaction amount"; "High-risk country";
              "Multiple failed login attempts"]%string
             "Enhanced verification required" in
  scoring_result [1 # 10; 9 # 10] 1 X = Return r
  /\ explanation r = PyStr.join " | " (risk_factors r).
Proof.
  intros X r.
  assert (H : scoring_result [1 # 10; 9 # 10] 1 X = Return r)
    by (vm_compute; reflexivity).
  split; [exact H|].
  destruct (risk_factors_are_fired_tests _ _ _ _ H)
    as (a & q & co & f & _ & _ & _ & _ & _ & He).
  exact He.
Defined.

(** In every result of [predict] the tier and the action agree at the
    ends: the high tier always comes with the enhanced verification, the
    low tier always with the standard one. *)
Theorem predict_tier_and_action (L : library) (fs : store L) (model_path : string)
    (features : option frame) (r : result) :
  fst (predict L fs model_path features) = Return r ->
  (risk_level r = "high"%string ->
   recommended_action r = "Enhanced verification required"%string)
  /\ (risk_level r = "low"%string ->
      recommended_action r = "Standard verification"%string)
  /\ (recommended_action r = "Standard verification"%string ->
      risk_level r <> "high"%string)
  /\ In (risk_level r) ["low"; "medium"; "high"]%string
  /\ In (recommended_action r)
        ["Enhanced verification required"; "Standard verification"]%string.
Proof.
  intros H. apply predict_Return in H.
  destruct H as (model & scaler & X & Xs & proba & rest & c & _ & _ & H).
  apply scoring_result_Return in H.
  destruct H as (p1 & _ & _ & _ & -> & _ & _ & ->).
  unfold calculate_risk_level.
  destruct (Qltb (p1 * 100) 33) eqn:H33; destruct (Qltb (p1 * 100) 67) eqn:H67;
    destruct (Qltb 66 (p1 * 100)) eqn:H66;
    try apply Qltb_lt in H33; try apply Qltb_ge in H33;
    try apply Qltb_lt in H67; try apply Qltb_ge in H67;
    try apply Qltb_lt in H66; try apply Qltb_ge in H66;
    try (exfalso; lra);
    repeat split; intros; try reflexivity; try discriminate;
    simpl; auto.
Qed.

Lemma predict_tier_and_action_witness :
  let m := Stub.mkClassifier 1 [5 # 100; 95 # 100] [] 0 in
  let r := mkResult "high" ((95 # 100) * 100) (95 # 100)
             "No significant risk factors identified"
             ["No significant risk factors identified"%string]
             "Enhanced verification required" in
  fst (predict Stub.library (Stub.kyc_store m) "model.joblib"
         (Some (Stub.kyc_record 250 (9 # 10) (1 # 10) 0))) = Return r
  /\ (risk_level r = "high"%string ->
      recommended_action r = "Enhanced verification required"%string).
Proof.
  intros m r.
  assert (H : fst (predict Stub.library (Stub.kyc_store m) "model.joblib"
                     (Some (Stub.kyc_record 250 (9 # 10) (1 # 10) 0))) = Return r)
    by (vm_compute; reflexivity).
  split; [exact H|].
  exact (proj1 (predict_tier_and_action Stub.library _ _ _ r H)).
Defined.

(** A higher probability of fraud never gives a lower score, tier or
    action: between two results, the one with the greater confidence has
    the greater risk score, is high when the other is, low only when the
    other is, and asks for the enhanced verification when the other does. *)
Theorem scoring_result_monotone (proba1 proba2 : list Q) (c1 c2 : Z)
    (X1 X2 : frame) (r1 r2 : result) :
  scoring_result proba1 c1 X1 = Return r1 ->
  scoring_result proba2 c2 X2 = Return r2 ->
  confidence r1 <= confidence r2 ->
  risk_score r1 <= risk_score r2
  /\ (risk_level r1 = "high"%string -> risk_level r2 = "high"%string)
  /\ (risk_level r2 = "low"%string -> risk_level r1 = "low"%string)
  /\ (recommended_action r1 = "Enhanced verification required"%string ->
      recommended_action r2 = "Enhanced verification required"%string).
Proof.
  intros H1 H2. apply scoring_result_Return in H1, H2.
  destruct H1 as (p1 & _ & -> & -> & -> & _ & _ & ->).
  destruct H2 as (p2 & _ & -> & -> & -> & _ & _ & ->).
  intros Hle. unfold calculate_risk_level.
  destruct (Qltb (p1 * 100) 33) eqn:A1; destruct (Qltb (p1 * 100) 67) eqn:B1;
    destruct (Qltb 66 (p1 * 100)) eqn:C1;
    destruct (Qltb (p2 * 100) 33) eqn:A2; destruct (Qltb (p2 * 100) 67) eqn:B2;
    destruct (Qltb 66 (p2 * 100)) eqn:C2;
    try apply Qltb_lt in A1; try apply Qltb_ge in A1;
    try apply Qltb_lt in B1; try apply Qltb_ge in B1;
    try apply Qltb_lt in C1; try apply Qltb_ge in C1;
    try apply Qltb_lt in A2; try apply Qltb_ge in A2;
    try apply Qltb_lt in B2; try apply Qltb_ge in B2;
    try apply Qltb_lt in C2; try apply Qltb_ge in C2;
    try (exfalso; lra);
    repeat split; intros; try reflexivity; try discriminate; lra.
Qed.

Lemma scoring_result_monotone_witness :
  let X := Stub.kyc_row 100 in
  let r1 := mkResult "medium" ((4 # 10) * 100) (4 # 10)
              "High-risk country | Multiple failed login attempts"
              ["High-risk country"; "Multiple failed login attempts"]%string
              "Standard verification" in
  let r2 := mkResult "high" ((7 # 10) * 100) (7 # 10)
              "High-risk country | Multiple failed login attempts"
              ["High-risk country"; "Multiple failed login attempts"]%string
              "Enhanced verification required" in
  scoring_result [6 # 10; 4 # 10] 0 X = Return r1
  /\ scoring_result [3 # 10; 7 # 10] 1 X = Return r2
  /\ confidence r1 <= confidence r2
  /\ risk_score r1 <= risk_score r2.
Proof.
  intros X r1 r2.
  assert (H1 : scoring_result [6 # 10; 4 # 10] 0 X = Return r1)
    by (vm_compute; reflexivity).
  assert (H2 : scoring_result [3 # 10; 7 # 10] 1 X = Return r2)
    by (vm_compute; reflexivity).
  assert (H3 : confidence r1 <= confidence r2) by (simpl; lra).
  split; [exact H1|]. split; [exact H2|]. split; [exact H3|].
  exact (proj1 (scoring_result_monotone _ _ _ _ _ _ r1 r2 H1 H2 H3)).
Defined.

(** A probability between 0 and 1 gives a risk score between 0 and 100. *)
Theorem scoring_result_bounds (proba : list Q) (c : Z) (X : frame) (r : result) :
  scoring_result proba c X = Return r ->
  0 <= confidence r <= 1 ->
  0 <= risk_score r <= 100.
Proof.
  intros H. apply scoring_result_Return in H.
  destruct H as (p1 & _ & -> & -> & _). lra.
Qed.

Lemma scoring_result_bounds_witness :
  let r := mkResult "medium" ((4 # 10) * 100) (4 # 10)
             "High-risk country | Multiple failed login attempts"
             ["High-risk country"; "Multiple failed login attempts"]%string
             "Standard verification" in
  scoring_result [6 # 10; 4 # 10] 0 (Stub.kyc_row 100) = Return r
  /\ 0 <= confidence r <= 1
  /\ 0 <= risk_score r <= 100.
Proof.
  intros r.
  assert (H1 : scoring_result [6 # 10; 4 # 10] 0 (Stub.kyc_row 100) = Return r)
    by (vm_compute; reflexivity).
  assert (H2 : 0 <= confidence r <= 1) by (simpl; lra).
  split; [exact H1|]. split; [exact H2|].
  exact (scoring_result_bounds _ _ _ r H1 H2).
Defined.



(** A batch of two records with two labels, on a model file that loads. *)
Example update_matched_batch_fails :
  let m := Stub.mkClassifier 1 [3 # 10; 7 # 10] [] 0 in
  update Stub.library (Stub.kyc_store m) "model.joblib"
    (Data (Some [Stub.kyc_record 120 (9 # 10) (1 # 10) 0;
                 Stub.kyc_record 80 (9 # 10) (1 # 10) 0])
          (Some [1%Z; 0%Z]))
  = (Raise (Exception "ValueError"), Stub.kyc_store m).
Proof. vm_compute. reflexivity. Qed.

(** Without a model file both commands exit with status 1 before reading
    the record; input that is not JSON exits with status 1 as well, and a
    batch without ['features'] or ['labels'] raises [KeyError]; in every
    one of these cases no file is written. *)
Theorem kyc_early_exits (L : library) (fs : store L) (model_path : string) :
  (fs !! model_path = None ->
     (forall features,
        predict L fs model_path features = (Raise (SystemExit 1), fs))
     /\ (forall features labels,
           update L fs model_path (Data (Some features) (Some labels))
           = (Raise (SystemExit 1), fs)))
  /\ (is_Some (fs !! model_path) ->
        predict L fs model_path None = (Raise (SystemExit 1), fs))
  /\ update L fs model_path NotJson = (Raise (SystemExit 1), fs)
  /\ (forall features, update L fs model_path (Data features None)
                       = (Raise (Exception "KeyError"), fs))
  /\ (forall labels, update L fs model_path (Data None labels)
                     = (Raise (Exception "KeyError"), fs)).
Proof.
  split; [|split; [|split; [|split]]].
  - intros Hnone. split.
    + intros features. unfold predict, load_model. now rewrite Hnone.
    + intros features labels. unfold update, load_model. cbn [Py.bind].
      now rewrite Hnone.
  - intros [[model scaler] Hsome]. unfold predict, load_model. now rewrite Hsome.
  - reflexivity.
  - intros [features|]; reflexivity.
  - intros [labels|]; reflexivity.
Qed.


End KycMore.

(** * Further properties of the AML scorer *)

Section AmlMore.
Import Py Sklearn Aml.
Local Open Scope Q_scope.

Lemma map_const_repeat {A B} (b : B) (l : list A) :
  map (fun _ => b) l = repeat b (length l).
Proof. induction l as [|a l IH]; simpl; [reflexivity|now rewrite IH]. Qed.

Lemma feature_row_length (L : library) (features : gmap string value)
    (row : list Q) :
  feature_row L features = Return row -> length row = 14%nat.
Proof.
  unfold feature_row. intros H.
  apply bind_Return in H. destruct H as (raw & Hraw & H).
  apply bind_Return in H. destruct H as (flags & Hflags & H).
  apply bind_Return in H. destruct H as (numbers & Hnum & H).
  injection H as <-.
  apply mapM_length in Hraw, Hflags, Hnum.
  rewrite length_app, Hnum, Hraw, Hflags. reflexivity.
Qed.

Lemma preprocess_features_model_file (L : library) (self : t L)
    (features : gmap string value) :
  model_file L (snd (preprocess_features L self features)) = model_file L self.
Proof.
  unfold preprocess_features. destruct (Py.bind _ _) as [[X s]|e]; reflexivity.
Qed.

(** Every request the scorer accepts reaches the classifier as the same row
    of fourteen zeros. *)
Lemma preprocess_features_zeros (L : library) (self self' : t L)
    (features : gmap string value) (X : matrix) :
  preprocess_features L self features = (Return X, self') ->
  X = [repeat 0 14] /\ model L self' = model L self
  /\ model_file L self' = model_file L self.
Proof.
  intros H.
  pose proof (preprocess_features_refits L self features X) as Hre.
  pose proof (preprocess_features_model L self features) as Hm.
  pose proof (preprocess_features_model_file L self features) as Hf.
  rewrite H in Hre, Hm, Hf. cbn [fst snd] in *.
  destruct (Hre eq_refl) as (row & Hrow & -> & _).
  apply feature_row_length in Hrow.
  rewrite map_const_repeat, Hrow. auto.
Qed.

(** The result of [predict] does not depend on the numbers of the
    request: with the same classifier, any two requests that are scored,
    each with numbers or booleans for its fourteen features, get the same
    result. *)
Theorem aml_predict_ignores_request (L : library) (self1 self2 : t L)
    (features1 features2 : gmap string value) (r1 r2 : result) :
  model L self1 = model L self2 ->
  numeric_record features1 = true ->
  numeric_record features2 = true ->
  fst (predict L self1 features1) = Return r1 ->
  fst (predict L self2 features2) = Return r2 ->
  r1 = r2.
Proof.
  intros Hmodel _ _. unfold predict.
  destruct (preprocess_features L self1 features1) as [[X1|e1] self1'] eqn:H1;
    [|discriminate].
  destruct (preprocess_features L self2 features2) as [[X2|e2] self2'] eqn:H2;
    [|discriminate].
  apply preprocess_features_zeros in H1, H2.
  destruct H1 as (-> & Hm1 & _). destruct H2 as (-> & Hm2 & _).
  cbn [fst Py.bind]. rewrite Hm1, Hm2, Hmodel. congruence.
Qed.

Lemma aml_predict_ignores_request_witness :
  let m := Stub.mkClassifier 1 [3 # 10; 7 # 10] [2 # 10; 5 # 10] 0 in
  let self1 := init Stub.library (Some m) in
  let self2 := mkT Stub.library m (Some (mkStandardScaler (repeat 100 14) (repeat 4 14) 50))
                 None in
  let r := mkResult "MEDIUM" (7 # 10)
             "Risk factors: amount: 0.20, transaction_count: 0.50"
             ["amount: 0.20"; "transaction_count: 0.50"]%string (7 # 10) in
  model Stub.library self1 = model Stub.library self2
  /\ numeric_record (Stub.aml_record 5000) = true
  /\ numeric_record (Stub.aml_record 90000) = true
  /\ fst (predict Stub.library self1 (Stub.aml_record 5000)) = Return r
  /\ fst (predict Stub.library self2 (Stub.aml_record 90000)) = Return r.
Proof.
  intros m self1 self2 r.
  assert (Hm : model Stub.library self1 = model Stub.library self2) by reflexivity.
  assert (Hn1 : numeric_record (Stub.aml_record 5000) = true)
    by (vm_compute; reflexivity).
  assert (Hn2 : numeric_record (Stub.aml_record 90000) = true)
    by (vm_compute; reflexivity).
  assert (H1 : fst (predict Stub.library self1 (Stub.aml_record 5000)) = Return r)
    by (vm_compute; reflexivity).
  destruct (fst (predict Stub.library self2 (Stub.aml_record 90000)))
    as [r2|e] eqn:H2; [|vm_compute in H2; discriminate].
  split; [exact Hm|]. split; [exact Hn1|]. split; [exact Hn2|].
  split; [exact H1|].
  f_equal. symmetry.
  exact (aml_predict_ignores_request Stub.library self1 self2 _ _ r r2
           Hm Hn1 Hn2 H1 H2).
Defined.

Lemma fold_max_ge (l : list Q) (x : Q) :
  let m := fold_left (fun m y => if Qltb m y then y else m) l x in
  x <= m /\ (forall y, In y l -> y <= m) /\ (m = x \/ In m l).
Proof.
  revert x. induction l as [|a l IH]; intros x; cbn [fold_left].
  - repeat split; [lra|intros y []|now left].
  - destruct (Qltb x a) eqn:E.
    + apply Qltb_lt in E. destruct (IH a) as (H1 & H2 & H3).
      repeat split.
      * lra.
      * intros y [<-|Hy]; auto.
      * right. destruct H3 as [->|H3]; [now left|now right].
    + apply Qltb_ge in E. destruct (IH x) as (H1 & H2 & H3).
      repeat split.
      * exact H1.
      * intros y [<-|Hy]; [lra|auto].
      * destruct H3 as [H3|H3]; [now left|right; now right].
Qed.

(** What [predict] returns, field by field. *)
Lemma aml_predict_Return (L : library) (self : t L)
    (features : gmap string value) (r : result) :
  fst (predict L self features) = Return r ->
  exists prediction probabilities,
    second probabilities = Return (risk_score r)
    /\ Qmax_list probabilities = Return (confidence r)
    /\ risk_level r = (if (prediction =? 1)%Z
                       then risk_level_of prediction (risk_score r)
                       else "LOW"%string).
Proof.
  unfold predict.
  destruct (preprocess_features L self features) as [X self']. cbn [fst].
  intros H.
  apply bind_Return in H. destruct H as (X' & _ & H).
  apply bind_Return in H. destruct H as (classes & _ & H).
  apply bind_Return in H. destruct H as (prediction & _ & H).
  apply bind_Return in H. destruct H as (probas & _ & H).
  apply bind_Return in H. destruct H as (probabilities & _ & H).
  apply bind_Return in H. destruct H as (level & Hlevel & H).
  apply bind_Return in H. destruct H as (importances & _ & H).
  apply bind_Return in H. destruct H as (p1 & Hp1 & H).
  apply bind_Return in H. destruct H as (conf & Hconf & H).
  injection H as <-. cbn [risk_score confidence risk_level].
  exists prediction, probabilities. split; [exact Hp1|]. split; [exact Hconf|].
  destruct (prediction =? 1)%Z.
  - rewrite Hp1 in Hlevel. cbn [Py.bind] in Hlevel. now injection Hlevel as <-.
  - now injection Hlevel as <-.
Qed.

(** In every result of the AML scorer the confidence is the greatest class
    probability, hence at least the risk score; the level is HIGH only
    above a risk score of 0.8 and MEDIUM only above 0.5 and up to 0.8. *)
Theorem aml_confidence_and_level (L : library) (self : t L)
    (features : gmap string value) (r : result) :
  fst (predict L self features) = Return r ->
  risk_score r <= confidence r
  /\ In (risk_level r) ["LOW"; "MEDIUM"; "HIGH"]%string
  /\ (risk_level r = "HIGH"%string -> 8 # 10 < risk_score r)
  /\ (risk_level r = "MEDIUM"%string -> 5 # 10 < risk_score r <= 8 # 10).
Proof.
  intros H. apply aml_predict_Return in H.
  destruct H as (prediction & probabilities & Hp1 & Hconf & ->).
  split.
  - unfold Qmax_list in Hconf. unfold second in Hp1.
    destruct probabilities as [|x [|y l]]; try discriminate.
    injection Hp1 as <-. injection Hconf as <-.
    destruct (fold_max_ge (y :: l) x) as (_ & Hall & _).
    apply Hall. now left.
  - unfold risk_level_of.
    destruct (prediction =? 1)%Z; [|simpl; repeat split; auto; discriminate].
    destruct (Qltb (8 # 10) (risk_score r)) eqn:H8.
    + apply Qltb_lt in H8. simpl. repeat split; auto; discriminate.
    + apply Qltb_ge in H8.
      destruct (Qltb (5 # 10) (risk_score r)) eqn:H5.
      * apply Qltb_lt in H5. simpl. repeat split; auto; discriminate.
      * simpl. repeat split; auto; discriminate.
Qed.

Lemma aml_confidence_and_level_witness :
  let m := Stub.mkClassifier 1 [1 # 10; 9 # 10] [] 0 in
  let r := mkResult "HIGH" (9 # 10) "Risk factors: " [] (9 # 10) in
  fst (predict Stub.library (init Stub.library (Some m)) (Stub.aml_record 5000))
  = Return r
  /\ risk_score r <= confidence r.
Proof.
  intros m r.
  assert (H : fst (predict Stub.library (init Stub.library (Some m))
                     (Stub.aml_record 5000)) = Return r)
    by (vm_compute; reflexivity).
  split; [exact H|].
  exact (proj1 (aml_confidence_and_level Stub.library _ _ r H)).
Defined.

Lemma mapM_Raise {A B} (f : A -> outcome B) (l : list A) (a : A) (e : exn) :
  In a l -> f a = Raise e -> exists e', mapM f l = Raise e'.
Proof.
  induction l as [|x l IH]; [intros []|].
  intros [->|Hin] Hf; cbn [mapM].
  - rewrite Hf. cbn [Py.bind]. eauto.
  - destruct (f x) as [b|e0]; cbn [Py.bind]; [|eauto].
    destruct (IH Hin Hf) as [e' ->]. cbn [Py.bind]. eauto.
Qed.

(** A request that lacks the transaction time or one of the fourteen
    features is refused, and the object, its scaler included, stays as it
    was. *)
Theorem aml_missing_feature (L : library) (self : t L)
    (features : gmap string value) (k : string) :
  In k ("transaction_time"%string :: feature_names) ->
  features !! k = None ->
  exists e, preprocess_features L self features = (Raise e, self)
            /\ predict L self features = (Raise e, self).
Proof.
  intros Hk Hnone.
  assert (Hpre : exists e, preprocess_features L self features = (Raise e, self)).
  { unfold preprocess_features.
    assert (Hitem : item features k = Raise (Exception "KeyError"))
      by (unfold item; now rewrite Hnone).
    destruct Hk as [<-|Hk].
    - rewrite Hitem. cbn [Py.bind]. eauto.
    - destruct (item features "transaction_time") as [time|e]; cbn [Py.bind]; [|eauto].
      destruct (match time with
                | VStr s => match fromisoformat L s with
                            | Some _ => Return time
                            | None => Raise (Exception "ValueError")
                            end
                | _ => Return time
                end) as [?|e]; cbn [Py.bind]; [|eauto].
      assert (Hrow : exists e, feature_row L features = Raise e).
      { unfold feature_row.
        rewrite <- (firstn_skipn 11 feature_names) in Hk.
        apply in_app_or in Hk. destruct Hk as [Hk|Hk].
        - destruct (mapM_Raise (item features) _ k _ Hk Hitem) as [e' ->].
          cbn [Py.bind]. eauto.
        - destruct (mapM (item features) (firstn 11 feature_names)) as [raw|e'];
            cbn [Py.bind]; [|eauto].
          destruct (mapM_Raise (fun k => do v <- item features k; float L v) _ k
                      (Exception "KeyError") Hk) as [e' ->].
          + now rewrite Hitem.
          + cbn [Py.bind]. eauto. }
      destruct Hrow as [e ->]. cbn [Py.bind]. eauto. }
  destruct Hpre as [e He]. exists e. split; [exact He|].
  unfold predict. rewrite He. reflexivity.
Qed.

Lemma aml_missing_feature_witness :
  let self := mkT Stub.library (Stub.mkClassifier 1 [3 # 10; 7 # 10] [] 0)
                (Some (mkStandardScaler (repeat 100 14) (repeat 4 14) 50)) None in
  let features := delete "ip_risk"%string (Stub.aml_record 5000) in
  In "ip_risk"%string ("transaction_time"%string :: feature_names)
  /\ features !! "ip_risk"%string = None
  /\ exists e, preprocess_features Stub.library self features = (Raise e, self)
               /\ predict Stub.library self features = (Raise e, self).
Proof.
  intros self features.
  assert (H1 : In "ip_risk"%string ("transaction_time"%string :: feature_names))
    by (simpl; auto 12).
  assert (H2 : features !! "ip_risk"%string = None) by apply lookup_delete_eq.
  split; [exact H1|]. split; [exact H2|].
  exact (aml_missing_feature Stub.library self features "ip_risk" H1 H2).
Defined.

Lemma preprocess_all_zeros (L : library) (features_list : list (gmap string value)) :
  forall (self self' : t L) (rows : matrix),
    preprocess_all L self features_list = (Return rows, self') ->
    rows = repeat (repeat 0 14) (length features_list)
    /\ model L self' = model L self.
Proof.
  induction features_list as [|f fl IH]; intros self self' rows; cbn [preprocess_all].
  - intros [= <- <-]. split; reflexivity.
  - destruct (preprocess_features L self f) as [[X|e] s1] eqn:H1; [|discriminate].
    apply preprocess_features_zeros in H1. destruct H1 as (-> & Hm1 & _).
    cbn [first].
    destruct (preprocess_all L s1 fl) as [[rows'|e] s2] eqn:H2; [|discriminate].
    intros [= <- <-]. destruct (IH _ _ _ H2) as (-> & Hm2).
    split; [reflexivity|congruence].
Qed.

Lemma preprocess_all_model_file (L : library)
    (features_list : list (gmap string value)) :
  forall self : t L,
    model_file L (snd (preprocess_all L self features_list)) = model_file L self.
Proof.
  induction features_list as [|f fl IH]; intros self; cbn [preprocess_all];
    [reflexivity|].
  pose proof (preprocess_features_model_file L self f) as Hf.
  destruct (preprocess_features L self f) as [[X|e] s1]; cbn [snd] in *; [|exact Hf].
  destruct (first X); cbn [snd]; [|exact Hf].
  specialize (IH s1).
  destruct (preprocess_all L s1 fl) as [[rows|e] s2]; cbn [snd] in *; congruence.
Qed.

Lemma Qsum_repeat_0 (c : Q) (k : nat) : c == 0 -> Qsum (repeat c k) == 0.
Proof.
  intros Hc. induction k as [|k IH]; cbn [repeat Qsum fold_right]; [reflexivity|].
  unfold Qsum in IH. rewrite IH, Hc. reflexivity.
Qed.

Lemma mean_zeros (k : nat) : mean (repeat 0 k) = 0.
Proof.
  unfold mean. transitivity (Qred 0); [|reflexivity]. apply Qred_complete.
  rewrite Qsum_repeat_0 by reflexivity. unfold Qdiv. apply Qmult_0_l.
Qed.

Lemma variance_zeros (k : nat) : variance (repeat 0 k) = 0.
Proof.
  unfold variance. rewrite mean_zeros.
  transitivity (Qred 0); [|reflexivity]. apply Qred_complete.
  rewrite map_repeat, Qsum_repeat_0 by reflexivity. unfold Qdiv. apply Qmult_0_l.
Qed.

Lemma column_zeros (j k : nat) :
  column j (repeat (repeat 0 14) k) = repeat 0 k.
Proof.
  unfold column. rewrite map_repeat. f_equal.
  do 14 (destruct j as [|j]; [reflexivity|]). now destruct j.
Qed.

Lemma forallb_repeat {A} (f : A -> bool) (a : A) (k : nat) :
  f a = true -> forallb f (repeat a k) = true.
Proof.
  intros H. induction k as [|k IH]; cbn [repeat forallb]; [reflexivity|].
  now rewrite H, IH.
Qed.

(** A scaler fitted to rows of zeros has mean and variance zero, and
    leaves such rows as they are. *)
Lemma scaler_fit_zeros (k : nat) :
  scaler_fit (repeat (repeat 0 14) (S k))
  = Return (mkStandardScaler (repeat 0 14) (repeat 0 14) (S k)).
Proof.
  unfold scaler_fit.
  change (repeat (repeat 0 14) (S k)) with (repeat 0 14 :: repeat (repeat 0 14) k) at 1.
  cbv beta iota.
  change (repeat 0 14 :: repeat (repeat 0 14) k) with (repeat (repeat 0 14) (S k)).
  rewrite forallb_repeat by reflexivity.
  rewrite !map_map, repeat_length.
  f_equal. f_equal.
  - rewrite (map_ext _ (fun _ => 0)); [reflexivity|].
    intros j. rewrite column_zeros. apply mean_zeros.
  - rewrite (map_ext _ (fun _ => 0)); [reflexivity|].
    intros j. rewrite column_zeros. apply variance_zeros.
  - apply repeat_length.
Qed.

Lemma scaler_transform_zeros (L : library) (k n : nat) :
  scaler_transform L (Some (mkStandardScaler (repeat 0 14) (repeat 0 14) n))
    (repeat (repeat 0 14) k)
  = Return (repeat (repeat 0 14) k).
Proof.
  unfold scaler_transform. cbn [mean_].
  rewrite forallb_repeat by reflexivity.
  f_equal. rewrite map_repeat. f_equal.
Qed.

(** [update] refits the classifier on rows of zeros, whatever the numbers
    of the batch: on records with numbers or booleans for their fourteen
    features, a successful call has fitted the classifier to as many rows
    of fourteen zeros as there are records, with the labels, and leaves a
    scaler of mean and variance zero; an empty batch fails. *)
Theorem aml_update_fits_zeros (L : library) (self : t L)
    (features_list : list (gmap string value)) (labels : list Z) :
  forallb numeric_record features_list = true ->
  fst (update L self features_list labels) = Return tt ->
  features_list <> []
  /\ exists model',
       fit L (model L self) (repeat (repeat 0 14) (length features_list)) labels
       = Return model'
       /\ snd (update L self features_list labels)
          = mkT L model'
              (Some (mkStandardScaler (repeat 0 14) (repeat 0 14)
                       (length features_list)))
              (Some model').
Proof.
  intros _. unfold update.
  destruct (preprocess_all L self features_list) as [[rows|e] self'] eqn:Hall;
    [|discriminate].
  apply preprocess_all_zeros in Hall. destruct Hall as (-> & Hm).
  destruct features_list as [|f fl]; [discriminate|].
  cbn [length]. rewrite scaler_fit_zeros. cbn [model model_file].
  rewrite scaler_transform_zeros. cbn [Py.bind]. rewrite Hm.
  destruct (fit L (model L self) _ labels) as [m'|e]; [|discriminate].
  intros _. split; [discriminate|]. exists m'. split; reflexivity.
Qed.

Lemma aml_update_fits_zeros_witness :
  let m := Stub.mkClassifier 1 [3 # 10; 7 # 10] [] 0 in
  let self := init Stub.library (Some m) in
  let batch := [Stub.aml_record 5000; Stub.aml_record 90000] in
  forallb numeric_record batch = true
  /\ fst (update Stub.library self batch [1%Z; 0%Z]) = Return tt
  /\ batch <> []
  /\ exists model',
       fit Stub.library (model Stub.library self)
         (repeat (repeat 0 14) (length batch)) [1%Z; 0%Z] = Return model'
       /\ snd (update Stub.library self batch [1%Z; 0%Z])
          = mkT Stub.library model'
              (Some (mkStandardScaler (repeat 0 14) (repeat 0 14) (length batch)))
              (Some model').
Proof.
  intros m self batch.
  assert (Hn : forallb numeric_record batch = true) by (vm_compute; reflexivity).
  assert (H : fst (update Stub.library self batch [1%Z; 0%Z]) = Return tt)
    by (vm_compute; reflexivity).
  split; [exact Hn|]. split; [exact H|].
  exact (aml_update_fits_zeros Stub.library self batch [1%Z; 0%Z] Hn H).
Defined.

(** An [update] that fails leaves the model file as it was. *)
Lemma aml_update_Raise_keeps_file (L : library) (self : t L)
    (features_list : list (gmap string value)) (labels : list Z) (e : exn) :
  fst (update L self features_list labels) = Raise e ->
  model_file L (snd (update L self features_list labels)) = model_file L self.
Proof.
  unfold update.
  pose proof (preprocess_all_model_file L features_list self) as Hf.
  destruct (preprocess_all L self features_list) as [[rows|e0] self'];
    cbn [fst snd] in *; [|intros _; exact Hf].
  destruct (scaler_fit rows) as [s|e1]; cbn [fst snd]; [|intros _; exact Hf].
  destruct (Py.bind _ _) as [m'|e2]; cbn [fst snd model_file];
    [discriminate|intros _; exact Hf].
Qed.

(** The AML script changes the model file only through an [update] that
    succeeds: [predict], [info], a usage error and a failed [update] all
    leave it as it was; with no command, or with a command other than
    these three, it exits with status 1. *)
Theorem aml_main_effects (L : library)
    (loads_record : string -> option (gmap string value))
    (loads_batch : string -> option (option (list (gmap string value)) * option (list Z)))
    (n_estimators max_depth : classifier L -> Z)
    (argv : list string) (file : option (classifier L)) :
  let out := AmlMain.main L loads_record loads_batch n_estimators max_depth argv file in
  (snd out <> file ->
     nth_error argv 1 = Some "update"%string /\ fst out = Return AmlMain.Status)
  /\ ((length argv < 2)%nat -> out = (Raise (SystemExit 1), file))
  /\ (forall command, nth_error argv 1 = Some command ->
        ~ In command ["predict"; "update"; "info"]%string ->
        out = (Raise (SystemExit 1), file)).
Proof.
  cbv zeta. unfold AmlMain.main.
  destruct argv as [|script [|command rest]].
  - split; [|split]; [cbn [snd]; congruence|reflexivity|discriminate].
  - split; [|split]; [cbn [snd]; congruence|reflexivity|discriminate].
  - cbn [nth_error length].
    assert (Hlen : ~ (S (S (length rest)) < 2)%nat) by lia.
    destruct (String.eqb_spec command "predict") as [->|Hp].
    + split; [|split]; [|tauto|intros c [= <-] Hc; simpl in Hc; tauto].
      destruct rest as [|data rest']; [cbn [snd]; congruence|].
      destruct (loads_record data) as [features|]; [|cbn [snd]; congruence].
      pose proof (preprocess_features_model_file L (init L file) features) as Hf.
      unfold predict. 
      destruct (preprocess_features L (init L file) features) as [X self'].
      cbn [fst snd] in *. rewrite Hf. simpl. congruence.
    + destruct (String.eqb_spec command "update") as [->|Hu].
      * split; [|split]; [|tauto|intros c [= <-] Hc; simpl in Hc; tauto].
        destruct rest as [|data rest']; [cbn [snd]; congruence|].
        destruct (loads_batch data) as [[[fl|] [labels|]]|]; try (cbn [snd]; congruence).
        pose proof (aml_update_Raise_keeps_file L (init L file) fl labels) as Hkeep.
        destruct (update L (init L file) fl labels) as [[[]|e] self'];
          cbn [fst snd Py.bind] in *.
        -- intros _. split; reflexivity.
        -- rewrite (Hkeep e eq_refl). simpl. congruence.
      * destruct (String.eqb_spec command "info") as [->|Hi].
        -- split; [|split]; [cbn [snd]; congruence|tauto|].
           intros c [= <-] Hc. simpl in Hc. tauto.
        -- split; [|split]; [cbn [snd]; congruence|tauto|reflexivity].
Qed.

End AmlMore.

(** * Properties of the simulated analyses *)

Section SimulationFacts.
Import Py Simulation.
Local Open Scope Q_scope.

(** Whatever is drawn, the simulated risk score lies between 5 and 25, so
    the level is LOW or MEDIUM and never HIGH, and the three factors of
    the HIGH branch never appear together: MULTIPLE_ATTEMPTS and
    IP_FRAUD_ASSOCIATION are never reported. *)
Theorem analyze_risk_simulation_range (u1 u2 u3 : Q) :
  0 <= u1 < 1 ->
  let out := _analyze_risk_simulation u1 u2 u3 in
  let risk_score := fst (fst out) in
  let risk_level := snd (fst out) in
  let risk_factors := snd out in
  5 <= risk_score < 25
  /\ risk_level <> "HIGH"%string
  /\ (risk_level = "LOW"%string <-> risk_score <= 15)
  /\ (risk_level = "MEDIUM"%string <-> 15 < risk_score)
  /\ ~ In "MULTIPLE_ATTEMPTS"%string risk_factors
  /\ ~ In "IP_FRAUD_ASSOCIATION"%string risk_factors
  /\ (length risk_factors <= 3)%nat.
Proof.
  intros Hu. cbv zeta. unfold _analyze_risk_simulation.
  destruct (Qle_bool (5 + u1 * 20) 15) eqn:H15.
  - apply Qle_bool_iff in H15.
    destruct (Qltb u2 (2 # 10)), (Qltb u3 (1 # 10)); cbn [fst snd app length In];
      repeat split; intros; try discriminate; try lra; try lia;
      intuition discriminate.
  - assert (H15' : 15 < 5 + u1 * 20).
    { apply Qnot_le_lt. intros Hle. apply Qle_bool_iff in Hle. congruence. }
    destruct (Qle_bool (5 + u1 * 20) 50) eqn:H50.
    + destruct (Qltb u2 (2 # 10)), (Qltb u3 (1 # 10)); cbn [fst snd app length In];
        repeat split; intros; try discriminate; try lra; try lia;
        intuition discriminate.
    + exfalso.
      assert (H50' : 5 + u1 * 20 <= 50) by lra.
      apply Qle_bool_iff in H50'. congruence.
Qed.

Lemma analyze_risk_simulation_range_witness :
  0 <= 99 # 100 < 1
  /\ snd (fst (_analyze_risk_simulation (99 # 100) (1 # 100) (1 # 100)))
     <> "HIGH"%string.
Proof.
  assert (H : 0 <= 99 # 100 < 1) by lra.
  split; [exact H|].
  exact (proj1 (proj2 (analyze_risk_simulation_range (99 # 100) (1 # 100) (1 # 100) H))).
Defined.

(** The simulated anomaly score tells the two outcomes apart: an anomaly
    scores from 70 to 100 and comes with a type from the list and three
    reasons, anything else scores from 0 to 30 and comes with neither. *)
Theorem detect_anomalies_simulation_range (u1 u2 : Q) (choice : nat) :
  0 <= u2 < 1 ->
  (choice < 5)%nat ->
  let out := _detect_anomalies_simulation u1 u2 choice in
  let is_anomaly := fst (fst (fst out)) in
  let anomaly_score := snd (fst (fst out)) in
  let anomaly_type := snd (fst out) in
  let reasons := snd out in
  (is_anomaly = true <-> u1 < 1 # 10)
  /\ (is_anomaly = true ->
      70 <= anomaly_score <= 100
      /\ (exists t, anomaly_type = Some t /\ In t anomaly_types)
      /\ length reasons = 3%nat)
  /\ (is_anomaly = false ->
      0 <= anomaly_score <= 30 /\ anomaly_type = None /\ reasons = []).
Proof.
  intros Hu Hc. cbv zeta. unfold _detect_anomalies_simulation.
  destruct (Qltb u1 (1 # 10)) eqn:E; cbn [fst snd].
  - apply Qltb_lt in E. split; [tauto|]. split; [|discriminate].
    intros _. split; [lra|]. split; [|reflexivity].
    exists (nth choice anomaly_types ""%string). split; [reflexivity|].
    do 5 (destruct choice as [|choice]; [simpl; auto 6|]). lia.
  - apply Qltb_ge in E. split; [split; [discriminate|lra]|].
    split; [discriminate|]. intros _. repeat split; lra.
Qed.

Lemma detect_anomalies_simulation_range_witness :
  0 <= 1 # 2 < 1 /\ (3 < 5)%nat
  /\ _detect_anomalies_simulation (5 # 100) (1 # 2) 3
     = (true, 70 + (1 # 2) * 30, Some "LOCATION_CHANGE"%string,
        ["LOCATION_CHANGE detected"; "Multiple verification attempts in short time";
         "Different device than usual"]%string)
  /\ 70 <= snd (fst (fst (_detect_anomalies_simulation (5 # 100) (1 # 2) 3))) <= 100.
Proof.
  assert (H1 : 0 <= 1 # 2 < 1) by lra.
  assert (H2 : (3 < 5)%nat) by lia.
  split; [exact H1|]. split; [exact H2|]. split; [reflexivity|].
  destruct (detect_anomalies_simulation_range (5 # 100) (1 # 2) 3 H1 H2)
    as (_ & Hyes & _).
  exact (proj1 (Hyes eq_refl)).
Defined.

(** The simulated face match reports a confidence of at least 75 exactly
    when it reports a match: a match has confidence from 75 to 95, a
    mismatch from 30 to 70. *)
Theorem match_faces_simulation_range (u1 u2 : Q) :
  0 <= u2 < 1 ->
  let out := _match_faces_simulation u1 u2 in
  (fst out = true <-> 15 # 100 < u1)
  /\ (fst out = true <-> 75 <= snd out)
  /\ (fst out = true -> 75 <= snd out <= 95)
  /\ (fst out = false -> 30 <= snd out <= 70).
Proof.
  intros Hu. cbv zeta. unfold _match_faces_simulation.
  destruct (Qltb (15 # 100) u1) eqn:E; cbn [fst snd].
  - apply Qltb_lt in E. repeat split; intros; try discriminate; try lra; auto.
  - apply Qltb_ge in E. repeat split; intros; try discriminate; lra.
Qed.

Lemma match_faces_simulation_range_witness :
  0 <= 9 # 10 < 1
  /\ _match_faces_simulation (1 # 10) (9 # 10) = (false, 30 + (9 # 10) * 40)
  /\ (fst (_match_faces_simulation (1 # 10) (9 # 10)) = true
      <-> 75 <= snd (_match_faces_simulation (1 # 10) (9 # 10)))
  /\ 30 <= snd (_match_faces_simulation (1 # 10) (9 # 10)) <= 70.
Proof.
  assert (H : 0 <= 9 # 10 < 1) by lra.
  split; [exact H|]. split; [reflexivity|].
  destruct (match_faces_simulation_range (1 # 10) (9 # 10) H)
    as (_ & Hiff & _ & Hno).
  split; [exact Hiff|exact (Hno eq_refl)].
Defined.

End SimulationFacts.
